(** * AS2FM: assembling SCXML automata into a JANI model and
      normalising its expressions

    Shallow embedding of
    [src/as2fm/jani_generator/scxml_helpers/scxml_to_jani.py]:

    - [convert_multiple_scxmls_to_jani], the assembler;
    - [preprocess_jani_expressions], the normaliser of a whole model;
    - [_preprocess_jani_expression] and [_preprocess_array_comparison],
      the normaliser of one expression and the expansion of an equality
      between an array variable and an array value.

    Python exceptions are values of [result]; the in-place updates of the
    model are state passing; dictionaries of variables are [gmap]s.  What
    the module imports from the rest of the package is either a field of a
    class of parameters ([ArrayHelpers], [Collaborators]) or a definition
    marked as modelled from the specification. *)

From Stdlib Require Import ZArith String List DecimalString.
From stdpp Require Import base option list gmap strings.

Open Scope string_scope.

(** ** Exceptions and results *)

(** The [assert] statements of the module, one constructor per statement,
    named after the message it carries. *)
Inductive Assertion : Type :=
| NotPlainScxml               (* l.88  "... does not contain a plain SCXML model." *)
| ArrayOperatorOutsideEquality (* l.146 "Array operators can be only used for assignments and comparisons." *)
| ExpectedEqOperator          (* l.165 "Expected an '=' operator, found ..." *)
| OperandsMissing             (* l.166, no message *)
| VariableNotInContext        (* l.176 "Can't find '...' in context vars ..." *)
| VariableNotArray            (* l.179 "Variable ... is not an array." *)
| NoArrayInfo                 (* l.181 "Cannot get array_info from JANI Var. ..." *)
| MissingLengthVariables      (* l.186 "Missing length variables in context. ..." *)
| ExpectedArrayValue          (* l.191 "Expected ... has op=='av'." *)
| OperandsNotDict             (* l.192 "Expect array_operands to be a dict." *)
| ElementsNotList             (* l.193 "Invalid 'av' operator's content." *)
| NonLiteralElements          (* l.195 "Found non-literal expressions in 'av' operator. ..." *)
| NoArrayVariable             (* l.200 "No array variable found in the eq. operator." *)
| UnexpectedArrayElements     (* l.201 "Unexpected value for array elements ..." *)
| MultiDimensionalUnsupported. (* l.204 "Trying to make comparisons across multi-dimensional arrays. Unsupported." *)

Inductive Exception : Type :=
| AssertionError (a : Assertion)
| UnboundLocalError (variable : string)
| KeyError (key : string)
| AttributeError
| ForeignError (message : string).

Inductive result (A : Type) : Type :=
| Ok (a : A)
| Raise (e : Exception).

Arguments Ok {A} a.
Arguments Raise {A} e.

Definition bind {A B : Type} (r : result A) (k : A -> result B) : result B :=
  match r with
  | Ok a => k a
  | Raise e => Raise e
  end.

Notation "'try!' x := r 'in' k" := (bind r (fun x => k))
  (at level 10, x name, r at level 100, k at level 200,
   format "'try!'  x  :=  r  'in'  '//' k").

Definition raised {A : Type} (r : result A) : Prop := exists e, r = Raise e.

(** ** Expression trees *)

Inductive JaniValue : Type :=
| VInt (z : Z)
| VBool (b : bool)
| VReal (num : Z) (den : positive).

(** Modelled from the spec: the class [JaniExpression] is defined in
    [jani_entries], outside the module verified here.  The specification's
    data model gives the four variants; every node carries an optional
    comment.  The operands of an operator
    are an ordered mapping from role to expression (a Python [dict] keeps
    insertion order), here an association list. *)
#[warnings="-register-all"]
Inductive JaniExpression : Type :=
| Literal (value : JaniValue) (comment : option string)
| Identifier (name : string) (comment : option string)
| Operator (op : string) (operands : list (string * JaniExpression))
           (comment : option string)
| ArrayValue (elements : list JaniExpression) (comment : option string).

Inductive JaniExpressionType : Type := IDENTIFIER | LITERAL | OPERATOR.

(** What [as_operator] hands back as operands: the role dictionary of an
    operator, or, for an array value, the dictionary whose only key
    ["elements"] holds a list. *)
Inductive Operands : Type :=
| ExprOperands (operands : list (string * JaniExpression))
| ElementsOperand (elements : list JaniExpression).

Definition get_expression_type (e : JaniExpression) : JaniExpressionType :=
  match e with
  | Identifier _ _ => IDENTIFIER
  | Literal _ _ => LITERAL
  | Operator _ _ _ | ArrayValue _ _ => OPERATOR
  end.

Definition as_identifier (e : JaniExpression) : option string :=
  match e with
  | Identifier name _ => Some name
  | _ => None
  end.

Definition as_operator (e : JaniExpression) : option string * option Operands :=
  match e with
  | Operator op operands _ => (Some op, Some (ExprOperands operands))
  | ArrayValue elements _ => (Some "av", Some (ElementsOperand elements))
  | Literal _ _ | Identifier _ _ => (None, None)
  end.

Definition get_comment (e : JaniExpression) : option string :=
  match e with
  | Literal _ c | Identifier _ c | Operator _ _ c | ArrayValue _ c => c
  end.

(** [e.comment = c] *)
Definition set_comment (e : JaniExpression) (c : option string) : JaniExpression :=
  match e with
  | Literal v _ => Literal v c
  | Identifier n _ => Identifier n c
  | Operator op ops _ => Operator op ops c
  | ArrayValue els _ => ArrayValue els c
  end.

Definition is_literal (e : JaniExpression) : bool :=
  match get_expression_type e with
  | LITERAL => true
  | _ => false
  end.

(** The induction principle Rocq derives does not reach below the lists;
    this one does. *)
Section JaniExpression_induction.
Variable P : JaniExpression -> Prop.
Hypothesis HLiteral : forall v c, P (Literal v c).
Hypothesis HIdentifier : forall n c, P (Identifier n c).
Hypothesis HOperator : forall op ops c,
    Forall (fun kv => P (snd kv)) ops -> P (Operator op ops c).
Hypothesis HArrayValue : forall els c, Forall P els -> P (ArrayValue els c).

Fixpoint JaniExpression_nested_ind (e : JaniExpression) : P e :=
  match e with
  | Literal v c => HLiteral v c
  | Identifier n c => HIdentifier n c
  | Operator op ops c =>
      HOperator op ops c
        ((fix operands_ind (l : list (string * JaniExpression))
            : Forall (fun kv => P (snd kv)) l :=
            match l with
            | [] => List.Forall_nil _
            | kv :: l' =>
                @List.Forall_cons _ _ kv l' (JaniExpression_nested_ind (snd kv))
                  (operands_ind l')
            end) ops)
  | ArrayValue els c =>
      HArrayValue els c
        ((fix elements_ind (l : list JaniExpression) : Forall P l :=
            match l with
            | [] => List.Forall_nil _
            | x :: l' =>
                @List.Forall_cons _ _ x l' (JaniExpression_nested_ind x) (elements_ind l')
            end) els)
  end.
End JaniExpression_induction.

(** Modelled from the spec: [equal_operator], [and_operator] and
    [array_access_operator] are defined in [jani_expression_generator],
    outside the module verified here.  Each builds one operator node of the
    JANI format, with its roles, and without a comment; a
    Python string given as operand becomes an identifier and an integer a
    literal, which the call sites below write out with [identifier_of] and
    [literal_of_nat]. *)
Definition identifier_of (name : string) : JaniExpression := Identifier name None.
Definition literal_of_nat (n : nat) : JaniExpression := Literal (VInt (Z.of_nat n)) None.

Definition equal_operator (left right : JaniExpression) : JaniExpression :=
  Operator "=" [("left", left); ("right", right)] None.

Definition and_operator (left right : JaniExpression) : JaniExpression :=
  Operator "∧" [("left", left); ("right", right)] None.

Definition array_access_operator (exp index : JaniExpression) : JaniExpression :=
  Operator "aa" [("exp", exp); ("index", index)] None.

(** ** Variables *)

Inductive JaniType : Type :=
| TBool
| TInt
| TReal
| TArray (element : JaniType).

(** Modelled from the spec: [ArrayInfo] and [JaniVariable] are defined in
    [jani_entries], outside the module verified here.  A variable has a
    name, a type and optional array metadata with the number of dimensions
    and the capacity of each. *)
Record ArrayInfo : Type := {
  array_dimensions : nat;
  array_max_sizes : list nat
}.

Record JaniVariable : Type := {
  var_name : string;
  var_type : JaniType;
  get_array_info : option ArrayInfo
}.

(** [Dict[str, JaniVariable]] *)
Abbreviation Registry := (gmap string JaniVariable).

(** Python's [a | b] on dictionaries: on a common key the right one wins. *)
Definition dict_or (a b : Registry) : Registry := b ∪ a.

(** ** The expression normaliser *)

(** Generic traversals of the loops below. *)
Fixpoint mapM {A B : Type} (f : A -> result B) (l : list A) : result (list B) :=
  match l with
  | [] => Ok []
  | x :: l' =>
      try! y := f x in
      try! ys := mapM f l' in
      Ok (y :: ys)
  end.

Fixpoint foldM {A S : Type} (f : S -> A -> result S) (s : S) (l : list A) : result S :=
  match l with
  | [] => Ok s
  | x :: l' => try! s' := f s x in foldM f s' l'
  end.

(** The local variables of [_preprocess_array_comparison] that its loop
    over the operands assigns.  [array_operator] is [None] while the name
    is still unbound. *)
Record ComparisonLocals : Type := {
  array_elements : option (list JaniExpression);
  array_var_id : option string;
  array_length_var_ids : list string;
  array_operator : option string
}.

Definition initial_locals : ComparisonLocals :=
  {| array_elements := None; array_var_id := None;
     array_length_var_ids := []; array_operator := None |}.

(** The helpers imported from [jani_utils] and [scxml_expression] are
    defined outside the module verified here.  The normaliser is written
    over any of them, as their call sites type them: [is_expression_array]
    sees one expression and nothing else, [is_variable_array] one
    variable, and [get_array_length_var_name] gives the name of the
    length variable of a dimension (counted from 1) of an array. *)
Class ArrayHelpers : Type := {
  is_expression_array : JaniExpression -> bool;
  is_variable_array : JaniVariable -> bool;
  get_array_length_var_name : string -> nat -> string
}.

Section Normaliser.

Context {helpers : ArrayHelpers}.

(** The expression built in l.207-213 from the name of the length
    variable, the name of the array, the elements and the comment. *)
Definition comparison_chain (length_var array_id : string)
    (elements : list JaniExpression) : JaniExpression :=
  fold_left
    (fun last_expr idx =>
       and_operator last_expr
         (equal_operator (nth idx elements (literal_of_nat 0))
            (array_access_operator (identifier_of array_id) (literal_of_nat idx))))
    (seq 0 (length elements))
    (equal_operator (identifier_of length_var) (literal_of_nat (length elements))).

(** One turn of the loop of l.170-198. *)
Definition scan_operand (context_vars : Registry) (locals : ComparisonLocals)
    (operand : JaniExpression) : result ComparisonLocals :=
  match get_expression_type operand with
  | IDENTIFIER =>
      match as_identifier operand with
      | None => Raise AttributeError
      | Some id =>
          match context_vars !! id with
          | None => Raise (AssertionError VariableNotInContext)
          | Some array_variable =>
              if negb (is_variable_array array_variable)
              then Raise (AssertionError VariableNotArray)
              else
                match get_array_info array_variable with
                | None => Raise (AssertionError NoArrayInfo)
                | Some array_info =>
                    let ids :=
                      map (fun d => get_array_length_var_name id (d + 1))
                          (seq 0 (array_dimensions array_info)) in
                    if forallb
                         (fun array_len_id =>
                            bool_decide (is_Some (context_vars !! array_len_id)))
                         ids
                    then Ok {| array_elements := array_elements locals;
                               array_var_id := Some id;
                               array_length_var_ids := ids;
                               array_operator := array_operator locals |}
                    else Raise (AssertionError MissingLengthVariables)
                end
          end
      end
  | _ =>
      let '(operand_operator, array_operands) := as_operator operand in
      if negb (bool_decide (operand_operator = Some "av"))
      then Raise (AssertionError ExpectedArrayValue)
      else
        match array_operands with
        | None => Raise (AssertionError OperandsNotDict)
        | Some (ExprOperands operands) =>
            match list_find (fun kv => fst kv = "elements") operands with
            | None => Raise (KeyError "elements")
            | Some _ => Raise (AssertionError ElementsNotList)
            end
        | Some (ElementsOperand elements) =>
            if forallb is_literal elements
            then Ok {| array_elements := Some elements;
                       array_var_id := array_var_id locals;
                       array_length_var_ids := array_length_var_ids locals;
                       array_operator := operand_operator |}
            else Raise (AssertionError NonLiteralElements)
        end
  end.

Definition _preprocess_array_comparison (jani_expression : JaniExpression)
    (context_vars : Registry) : result JaniExpression :=
  let '(exp_operator, exp_operands) := as_operator jani_expression in
  if negb (bool_decide (exp_operator = Some "="))
  then Raise (AssertionError ExpectedEqOperator)
  else
    match exp_operands with
    | None => Raise (AssertionError OperandsMissing)
    | Some (ElementsOperand _) => Raise AttributeError
    | Some (ExprOperands exp_operands) =>
        try! locals := foldM (scan_operand context_vars) initial_locals
                         (map snd exp_operands) in
        match array_operator locals with
        | None => Raise (UnboundLocalError "array_operator")
        | Some _ =>
            match array_var_id locals with
            | None => Raise (AssertionError NoArrayVariable)
            | Some id =>
                match array_elements locals with
                | None => Raise (AssertionError UnexpectedArrayElements)
                | Some elements =>
                    match array_length_var_ids locals with
                    | [length_var] =>
                        Ok (set_comment (comparison_chain length_var id elements)
                              (get_comment jani_expression))
                    | _ => Raise (AssertionError MultiDimensionalUnsupported)
                    end
                end
            end
        end
    end.

(** l.136-157.  An operator whose operands hold no array is rebuilt from
    its normalised operands, in their order and under their roles.  The
    operand of an array value that [is_expression_array] does not
    recognise is a Python list, which has none of the methods the code
    goes on to call: that path ends in an exception. *)
Fixpoint _preprocess_jani_expression (jani_expression : JaniExpression)
    (context_vars : Registry) {struct jani_expression} : result JaniExpression :=
  match jani_expression with
  | Literal _ _ | Identifier _ _ => Ok jani_expression
  | ArrayValue _ _ =>
      if is_expression_array jani_expression then Ok jani_expression
      else Raise AttributeError
  | Operator exp_operator exp_operands comment =>
      if is_expression_array jani_expression then Ok jani_expression
      else if existsb (fun kv => is_expression_array (snd kv)) exp_operands
      then
        if String.eqb exp_operator "="
        then _preprocess_array_comparison jani_expression context_vars
        else Raise (AssertionError ArrayOperatorOutsideEquality)
      else
        try! new_operands :=
          (fix operands_loop (l : list (string * JaniExpression))
             : result (list (string * JaniExpression)) :=
             match l with
             | [] => Ok []
             | (operand_name, operand_expr) :: l' =>
                 try! e' := _preprocess_jani_expression operand_expr context_vars in
                 try! rest := operands_loop l' in
                 Ok ((operand_name, e') :: rest)
             end) exp_operands in
        Ok (Operator exp_operator new_operands comment)
  end.

(** The step of the loop of l.151-154: one operand is normalised and kept
    under its role. *)
Definition normalise_operand (context_vars : Registry)
    (kv : string * JaniExpression) : result (string * JaniExpression) :=
  try! e' := _preprocess_jani_expression (snd kv) context_vars in
  Ok (fst kv, e').

(** The test of l.182-188: the length variables of an array, one for each
    of its dimensions, are all in the context. *)
Definition length_variables_present (ctx : Registry) (x : string)
    (info : ArrayInfo) : bool :=
  forallb (fun n => bool_decide (is_Some (ctx !! n)))
    (map (fun d => get_array_length_var_name x (d + 1))
       (seq 0 (array_dimensions info))).

(** The array check takes nothing but array values for arrays. *)
Definition recognises_only_array_values : Prop :=
  forall e, is_expression_array e = true ->
            exists elements comment, e = ArrayValue elements comment.

(** An operand recognised as an array sits under an operator other than
    equality, at this node or, through operands of operators, below it. *)
Inductive misplaced_array : JaniExpression -> Prop :=
| misplaced_here op ops c :
    op <> "=" ->
    existsb (fun kv => is_expression_array (snd kv)) ops = true ->
    misplaced_array (Operator op ops c)
| misplaced_below op ops c role operand :
    In (role, operand) ops ->
    misplaced_array operand ->
    misplaced_array (Operator op ops c).

End Normaliser.

(** ** Models *)

(** Modelled from the spec: the classes of [jani_entries] that hold
    expressions are defined outside the module verified here.  Each keeps
    the fields the normaliser reads or writes, and what lies beside
    them. *)
Record JaniGuard : Type := {
  guard_expression : option JaniExpression
}.

Record JaniAssignment : Type := {
  assignment_ref : JaniExpression;
  assignment_value : JaniExpression;
  assignment_index : Z
}.

Record JaniDestination : Type := {
  destination_location : string;
  destination_probability : option JaniExpression;
  assignments : list JaniAssignment
}.

Record JaniEdge : Type := {
  edge_location : string;
  edge_action : option string;
  guard : option JaniGuard;
  destinations : list JaniDestination
}.

Record JaniAutomaton : Type := {
  automaton_name : string;
  automaton_variables : Registry;
  automaton_edges : list JaniEdge
}.

Record JaniProperty : Type := {
  property_name : string;
  property_operands : list (string * JaniExpression)
}.

Record JaniModel : Type := {
  model_variables : Registry;
  model_features : list string;
  model_automata : list JaniAutomaton;
  model_properties : list JaniProperty
}.

(** [JaniAutomaton()] and [JaniModel()] *)
Definition new_automaton : JaniAutomaton :=
  {| automaton_name := ""; automaton_variables := ∅; automaton_edges := [] |}.

Definition new_model : JaniModel :=
  {| model_variables := ∅; model_features := [];
     model_automata := []; model_properties := [] |}.

Definition add_feature (feature : string) (m : JaniModel) : JaniModel :=
  {| model_variables := model_variables m;
     model_features := (model_features m ++ [feature])%list;
     model_automata := model_automata m;
     model_properties := model_properties m |}.

Section ModelNormaliser.

Context {helpers : ArrayHelpers}.


(** l.127-129 *)
Definition preprocess_assignment (context_variables : Registry)
    (assignment : JaniAssignment) : result JaniAssignment :=
  try! e := _preprocess_jani_expression (assignment_value assignment) context_variables in
  Ok {| assignment_ref := assignment_ref assignment;
        assignment_value := e;
        assignment_index := assignment_index assignment |}.

(** l.124-129 *)
Definition preprocess_destination (context_variables : Registry)
    (jani_destination : JaniDestination) : result JaniDestination :=
  try! new_assignments :=
    mapM (preprocess_assignment context_variables) (assignments jani_destination) in
  Ok {| destination_location := destination_location jani_destination;
        destination_probability := destination_probability jani_destination;
        assignments := new_assignments |}.

(** l.118-123 *)
Definition preprocess_guard (context_variables : Registry)
    (g : option JaniGuard) : result (option JaniGuard) :=
  match g with
  | None => Ok None
  | Some jani_guard =>
      match guard_expression jani_guard with
      | None => Ok (Some jani_guard)
      | Some guard_exp =>
          try! e := _preprocess_jani_expression guard_exp context_variables in
          Ok (Some {| guard_expression := Some e |})
      end
  end.

(** l.117-129 *)
Definition preprocess_edge (context_variables : Registry)
    (jani_edge : JaniEdge) : result JaniEdge :=
  try! new_guard := preprocess_guard context_variables (guard jani_edge) in
  try! new_destinations :=
    mapM (preprocess_destination context_variables) (destinations jani_edge) in
  Ok {| edge_location := edge_location jani_edge;
        edge_action := edge_action jani_edge;
        guard := new_guard;
        destinations := new_destinations |}.

(** l.115-129 *)
Definition preprocess_automaton (global_variables : Registry)
    (jani_automaton : JaniAutomaton) : result JaniAutomaton :=
  let context_variables :=
    dict_or global_variables (automaton_variables jani_automaton) in
  try! new_edges :=
    mapM (preprocess_edge context_variables) (automaton_edges jani_automaton) in
  Ok {| automaton_name := automaton_name jani_automaton;
        automaton_variables := automaton_variables jani_automaton;
        automaton_edges := new_edges |}.

(** l.130-133 *)
Definition preprocess_property (global_variables : Registry)
    (property : JaniProperty) : result JaniProperty :=
  try! new_operands :=
    mapM (fun kv : string * JaniExpression =>
            try! e := _preprocess_jani_expression (snd kv) global_variables in
            Ok (fst kv, e))
         (property_operands property) in
  Ok {| property_name := property_name property;
        property_operands := new_operands |}.

(** l.108-133.  The function updates the model in place and returns
    nothing; here it returns the updated model, or the exception. *)
Definition preprocess_jani_expressions (jani_model : JaniModel) : result JaniModel :=
  let global_variables := model_variables jani_model in
  try! new_automata :=
    mapM (preprocess_automaton global_variables) (model_automata jani_model) in
  try! new_properties :=
    mapM (preprocess_property global_variables) (model_properties jani_model) in
  Ok {| model_variables := model_variables jani_model;
        model_features := model_features jani_model;
        model_automata := new_automata;
        model_properties := new_properties |}.

End ModelNormaliser.

(** ** The assembler *)

(** What [log_error] is called with: the locator of a source and a
    message. *)
Record LogEntry (Origin : Type) : Type := {
  log_origin : Origin;
  log_message : string
}.

Arguments log_origin {Origin} _.
Arguments log_message {Origin} _.

(** The statechart handles, the event registry and the locator of a source
    file are opaque here, and so are the translator of one statechart
    ([BaseTag.from_element(...).write_model()]), the fold of an automaton
    into the model and the three passes that follow: all are defined
    outside the module verified here, and any of them may raise. *)
Class Collaborators : Type := {
  ScxmlRoot : Type;
  EventsHolder : Type;
  XmlOrigin : Type;
  is_plain_scxml : ScxmlRoot -> bool;
  get_name : ScxmlRoot -> string;
  get_xml_origin : ScxmlRoot -> XmlOrigin;
  new_events_holder : EventsHolder;
  write_model :
    ScxmlRoot -> JaniAutomaton -> EventsHolder -> Z ->
    result (JaniAutomaton * EventsHolder);
  add_jani_automaton : JaniModel -> JaniAutomaton -> result JaniModel;
  implement_scxml_events_as_jani_syncs :
    EventsHolder -> Z -> JaniModel -> result JaniModel;
  remove_empty_self_loops_from_interface_handlers_in_jani :
    JaniModel -> result JaniModel;
  expand_random_variables_in_jani_model : JaniModel -> Z -> result JaniModel
}.

Section Assembler.

Context {collaborators : Collaborators}.

(** l.52-69 *)
Definition convert_scxml_root_to_jani_automaton (scxml_root : ScxmlRoot)
    (events_holder : EventsHolder) (max_array_size : Z)
    : result (JaniAutomaton * EventsHolder) :=
  write_model scxml_root new_automaton events_holder max_array_size.

(** The loop of l.86-101, over the model, the event registry and the
    log. *)
Fixpoint fold_inputs (scxmls : list ScxmlRoot) (max_array_size : Z)
    (base_model : JaniModel) (events_holder : EventsHolder)
    (log : list (LogEntry XmlOrigin))
    : list (LogEntry XmlOrigin) * result (JaniModel * EventsHolder) :=
  match scxmls with
  | [] => (log, Ok (base_model, events_holder))
  | input_scxml :: rest =>
      if negb (is_plain_scxml input_scxml)
      then (log, Raise (AssertionError NotPlainScxml))
      else
        match convert_scxml_root_to_jani_automaton input_scxml events_holder
                max_array_size with
        | Raise e =>
            ((log ++ [{| log_origin := get_xml_origin input_scxml;
                         log_message :=
                           ("Error while converting SCXML model "
                              ++ get_name input_scxml ++ ".")%string |}])%list,
             Raise e)
        | Ok (automaton, events_holder') =>
            match add_jani_automaton base_model automaton with
            | Raise e => (log, Raise e)
            | Ok base_model' =>
                fold_inputs rest max_array_size base_model' events_holder' log
            end
        end
  end.

(** l.82-84 *)
Definition base_model : JaniModel :=
  add_feature "trigonometric-functions" (add_feature "arrays" new_model).

(** l.72-105.  The three passes update the model in place; here each
    returns the updated model, or raises, and the next one is given what
    the one before returned. *)
Definition convert_multiple_scxmls_to_jani (scxmls : list ScxmlRoot)
    (max_array_size : Z) (log : list (LogEntry XmlOrigin))
    : list (LogEntry XmlOrigin) * result JaniModel :=
  match fold_inputs scxmls max_array_size base_model new_events_holder log with
  | (log', Raise e) => (log', Raise e)
  | (log', Ok (model, events_holder)) =>
      (log',
       try! model1 :=
         implement_scxml_events_as_jani_syncs events_holder max_array_size
           model in
       try! model2 :=
         remove_empty_self_loops_from_interface_handlers_in_jani model1 in
       expand_random_variables_in_jani_model model2 100)
  end.

End Assembler.

(** ** One reading of the absent helpers *)

(** Modelled from the spec: [is_expression_array] is defined in
    [jani_utils], outside the module verified here.  It is called with one
    expression and without the variables in scope, and an identifier holds
    a name and no type: of the specification's "array-value or array-typed
    identifier" the check can tell the first, that the node is an array
    value. *)
Definition is_array_value (e : JaniExpression) : bool :=
  match e with
  | ArrayValue _ _ => true
  | _ => false
  end.

(** Modelled from the spec: [is_variable_array] is defined in
    [jani_utils], outside the module verified here; a variable is an array
    when its declared type is. *)
Definition has_array_type (v : JaniVariable) : bool :=
  match var_type v with
  | TArray _ => true
  | _ => false
  end.

(** Modelled from the spec: [get_array_length_var_name] is defined in
    [scxml_expression], outside the module verified here; the
    specification's scenario names
    the length variable of the first dimension of [arr] as
    [arr_length_1]. *)
Definition length_var_name (array_name : string) (dimension : nat) : string :=
  array_name ++ "_length_" ++ NilEmpty.string_of_uint (Nat.to_uint dimension).

(** The helpers with a given array check, and with the one above. *)
Definition helpers_with (check : JaniExpression -> bool) : ArrayHelpers :=
  {| is_expression_array := check;
     is_variable_array := has_array_type;
     get_array_length_var_name := length_var_name |}.

Definition reference_helpers : ArrayHelpers := helpers_with is_array_value.

(** The conjunction as the specification words it: a seed
    [length_var == N], to which the comparisons of the first [i] elements
    are conjoined one after the other, each on the right of what was built
    so far. *)
Fixpoint expected_conjunction (length_var array_id : string)
    (elements : list JaniExpression) (i : nat) : JaniExpression :=
  match i with
  | 0 => equal_operator (identifier_of length_var)
           (literal_of_nat (length elements))
  | S j =>
      and_operator (expected_conjunction length_var array_id elements j)
        (equal_operator (nth j elements (literal_of_nat 0))
           (array_access_operator (identifier_of array_id) (literal_of_nat j)))
  end.

(** ** The scenario of the specification *)

(** An array [arr] of capacity 5 with its length variable [arr_length_1],
    and the guard [arr == [1, 2]]. *)
Definition int_variable (name : string) : JaniVariable :=
  {| var_name := name; var_type := TInt; get_array_info := None |}.

Definition array_variable (name : string) (capacities : list nat) : JaniVariable :=
  {| var_name := name;
     var_type := TArray TInt;
     get_array_info :=
       Some {| array_dimensions := length capacities;
               array_max_sizes := capacities |} |}.

Definition scenario_context : Registry :=
  <["arr" := array_variable "arr" [5]]>
    (<["arr_length_1" := int_variable "arr_length_1"]> ∅).

Definition int_literal (z : Z) : JaniExpression := Literal (VInt z) None.

Definition scenario_guard : JaniExpression :=
  Operator "="
    [("left", Identifier "arr" None);
     ("right", ArrayValue [int_literal 1; int_literal 2] None)]
    (Some "guard of S1").

Definition scenario_guard_expanded : JaniExpression :=
  Operator "∧"
    [("left",
      Operator "∧"
        [("left",
          Operator "=" [("left", Identifier "arr_length_1" None);
                        ("right", int_literal 2)] None);
         ("right",
          Operator "=" [("left", int_literal 1);
                        ("right",
                         Operator "aa" [("exp", Identifier "arr" None);
                                        ("index", int_literal 0)] None)] None)]
        None);
     ("right",
      Operator "=" [("left", int_literal 2);
                    ("right",
                     Operator "aa" [("exp", Identifier "arr" None);
                                    ("index", int_literal 1)] None)] None)]
    (Some "guard of S1").

(** The guard [a == b] between two identifiers, in a context where [a]
    is an array and in one where both are integers. *)
Definition identifiers_guard : JaniExpression :=
  Operator "=" [("left", Identifier "a" None); ("right", Identifier "b" None)] None.

Definition context_a_array : Registry :=
  <["a" := array_variable "a" [5]]>
    (<["a_length_1" := int_variable "a_length_1"]>
       (<["b" := int_variable "b"]> ∅)).

Definition context_a_int : Registry :=
  <["a" := int_variable "a"]> (<["b" := int_variable "b"]> ∅).

(** A matrix [m] of two dimensions whose second length variable is not
    declared, and the guard [m == [1]]. *)
Definition context_matrix : Registry :=
  <["m" := array_variable "m" [3; 3]]>
    (<["m_length_1" := int_variable "m_length_1"]> ∅).

Definition matrix_guard : JaniExpression :=
  Operator "="
    [("left", Identifier "m" None); ("right", ArrayValue [int_literal 1] None)]
    None.

(** The same matrix with both of its length variables declared. *)
Definition context_matrix_complete : Registry :=
  <["m_length_2" := int_variable "m_length_2"]> context_matrix.

(** The guard [arr == [x + 1]], whose array value holds a computed
    element, and the guard [[1] == [2]] between two array values. *)
Definition computed_element_guard : JaniExpression :=
  Operator "="
    [("left", Identifier "arr" None);
     ("right",
      ArrayValue
        [Operator "+" [("left", Identifier "x" None); ("right", int_literal 1)]
           None] None)]
    None.

Definition array_values_guard : JaniExpression :=
  Operator "="
    [("left", ArrayValue [int_literal 1] None);
     ("right", ArrayValue [int_literal 2] None)]
    None.

(** ** The expressions of a model *)

(** The expressions that the normaliser rewrites on an edge: the guard,
    when there is one, and then the values assigned at each destination. *)
Definition guard_expressions (g : option JaniGuard) : list JaniExpression :=
  match g with
  | Some jani_guard =>
      match guard_expression jani_guard with
      | Some e => [e]
      | None => []
      end
  | None => []
  end.

Definition destination_expressions (d : JaniDestination) : list JaniExpression :=
  map assignment_value (assignments d).

Definition edge_expressions (jani_edge : JaniEdge) : list JaniExpression :=
  (guard_expressions (guard jani_edge)
     ++ concat (map destination_expressions (destinations jani_edge)))%list.

(** A model with a global array [garr], an automaton that declares [arr]
    and guards an edge by [arr == [1, 2]], and a property on [garr]. *)
Definition scenario_globals : Registry :=
  <["garr" := array_variable "garr" [4]]>
    (<["garr_length_1" := int_variable "garr_length_1"]> ∅).

Definition scenario_edge : JaniEdge :=
  {| edge_location := "idle";
     edge_action := None;
     guard := Some {| guard_expression := Some scenario_guard |};
     destinations :=
       [{| destination_location := "idle";
           destination_probability := None;
           assignments :=
             [{| assignment_ref := Identifier "x" None;
                 assignment_value :=
                   Operator "+" [("left", Identifier "x" None);
                                 ("right", int_literal 1)] None;
                 assignment_index := 0 |}] |}] |}.

Definition scenario_automaton : JaniAutomaton :=
  {| automaton_name := "S1";
     automaton_variables := scenario_context;
     automaton_edges := [scenario_edge] |}.

Definition global_array_property : JaniProperty :=
  {| property_name := "garr_is_3";
     property_operands :=
       [("exp",
         Operator "="
           [("left", Identifier "garr" None);
            ("right", ArrayValue [int_literal 3] None)] None)] |}.

Definition local_array_property : JaniProperty :=
  {| property_name := "arr_is_1_2";
     property_operands := [("exp", scenario_guard)] |}.

Definition scenario_model (properties : list JaniProperty) : JaniModel :=
  {| model_variables := scenario_globals;
     model_features := ["arrays"; "trigonometric-functions"];
     model_automata := [scenario_automaton];
     model_properties := properties |}.

(** The normalised forms of the edge, the property and the model. *)
Definition scenario_edge_normalised : JaniEdge :=
  {| edge_location := "idle";
     edge_action := None;
     guard := Some {| guard_expression := Some scenario_guard_expanded |};
     destinations := destinations scenario_edge |}.

Definition global_array_property_normalised : JaniProperty :=
  {| property_name := "garr_is_3";
     property_operands :=
       [("exp",
         Operator "∧"
           [("left",
             Operator "=" [("left", Identifier "garr_length_1" None);
                           ("right", int_literal 1)] None);
            ("right",
             Operator "=" [("left", int_literal 3);
                           ("right",
                            Operator "aa" [("exp", Identifier "garr" None);
                                           ("index", int_literal 0)] None)]
               None)]
           None)] |}.

Definition scenario_model_normalised : JaniModel :=
  {| model_variables := scenario_globals;
     model_features := ["arrays"; "trigonometric-functions"];
     model_automata :=
       [{| automaton_name := "S1";
           automaton_variables := scenario_context;
           automaton_edges := [scenario_edge_normalised] |}];
     model_properties := [global_array_property_normalised] |}.

(** ** Stand-ins for the collaborators of the assembler *)

(** A statechart handle is its name, the event registry the list of the
    names translated so far.  The translator fails on the statechart named
    [broken]; folding refuses a name the model already has; each pass
    leaves its mark, in the order of the calls, in the features of the
    model. *)
Definition toy_write_model (scxml_root : string) (automaton : JaniAutomaton)
    (events_holder : list string) (max_array_size : Z)
    : result (JaniAutomaton * list string) :=
  if String.eqb scxml_root "broken"
  then Raise (ForeignError "no initial state")
  else Ok ({| automaton_name := scxml_root;
              automaton_variables := automaton_variables automaton;
              automaton_edges := automaton_edges automaton |},
           (events_holder ++ [scxml_root])%list).

Definition toy_add_jani_automaton (m : JaniModel) (automaton : JaniAutomaton)
    : result JaniModel :=
  if existsb (String.eqb (automaton_name automaton))
       (map automaton_name (model_automata m))
  then Raise (ForeignError "duplicate automaton")
  else Ok {| model_variables := model_variables m;
             model_features := model_features m;
             model_automata := (model_automata m ++ [automaton])%list;
             model_properties := model_properties m |}.

Definition toy_syncs (events_holder : list string) (max_array_size : Z)
    (m : JaniModel) : result JaniModel :=
  Ok (add_feature ("syncs of " ++ String.concat "," events_holder) m).

Definition toy_prune (m : JaniModel) : result JaniModel :=
  Ok (add_feature "pruned" m).

Definition toy_expand (m : JaniModel) (n_options : Z) : result JaniModel :=
  Ok (add_feature
        (if Z.eqb n_options 100 then "expanded to 100" else "expanded") m).

Definition toy_collaborators : Collaborators :=
  {| ScxmlRoot := string;
     EventsHolder := list string;
     XmlOrigin := string;
     is_plain_scxml := fun _ => true;
     get_name := fun name => name;
     get_xml_origin := fun name => name ++ ".scxml";
     new_events_holder := [];
     write_model := toy_write_model;
     add_jani_automaton := toy_add_jani_automaton;
     implement_scxml_events_as_jani_syncs := toy_syncs;
     remove_empty_self_loops_from_interface_handlers_in_jani := toy_prune;
     expand_random_variables_in_jani_model := toy_expand |}.

(** The sum [a + 1], read in the same two contexts. *)
Definition identifier_sum : JaniExpression :=
  Operator "+" [("left", Identifier "a" None); ("right", int_literal 1)] None.

(** ** Shapes of expressions and of models *)

Section Shapes.

Context {helpers : ArrayHelpers}.

(** Below operators, no operand is taken for an array by the array check;
    an expression that the check itself takes for an array is not looked
    into. *)
Fixpoint array_free (e : JaniExpression) : bool :=
  match e with
  | Literal _ _ | Identifier _ _ => true
  | ArrayValue _ _ => is_expression_array e
  | Operator _ operands _ =>
      is_expression_array e
      || (fix operands_free (l : list (string * JaniExpression)) : bool :=
            match l with
            | [] => true
            | (_, operand) :: l' =>
                negb (is_expression_array operand) && array_free operand
                && operands_free l'
            end) operands
  end.

(** An identifier of an array that is declared with its length variables. *)
Definition declared_array (ctx : Registry) (operand : JaniExpression) : Prop :=
  exists x cx v info,
    operand = Identifier x cx
    /\ ctx !! x = Some v
    /\ is_variable_array v = true
    /\ get_array_info v = Some info
    /\ length_variables_present ctx x info = true.

End Shapes.

(** No operator, at any depth below operators, has an array value among
    its operands. *)
Fixpoint no_array_operand (e : JaniExpression) : bool :=
  match e with
  | Operator _ operands _ =>
      (fix operands_clean (l : list (string * JaniExpression)) : bool :=
         match l with
         | [] => true
         | (_, operand) :: l' =>
             negb (is_array_value operand) && no_array_operand operand
             && operands_clean l'
         end) operands
  | _ => true
  end.

(** What of a guard does not depend on its expression: whether there is a
    guard, and whether it holds an expression. *)
Definition guard_skeleton (g : option JaniGuard) : option (option unit) :=
  option_map (fun jani_guard => option_map (fun _ => tt) (guard_expression jani_guard)) g.

(** Two assignments, destinations, edges, automata or properties that
    differ at most in the expressions the normaliser rewrites. *)
Definition same_assignment_frame (a a' : JaniAssignment) : Prop :=
  assignment_ref a' = assignment_ref a
  /\ assignment_index a' = assignment_index a.

Definition same_destination_frame (d d' : JaniDestination) : Prop :=
  destination_location d' = destination_location d
  /\ destination_probability d' = destination_probability d
  /\ Forall2 same_assignment_frame (assignments d) (assignments d').

Definition same_edge_frame (ed ed' : JaniEdge) : Prop :=
  edge_location ed' = edge_location ed
  /\ edge_action ed' = edge_action ed
  /\ guard_skeleton (guard ed') = guard_skeleton (guard ed)
  /\ Forall2 same_destination_frame (destinations ed) (destinations ed').

Definition same_automaton_frame (a a' : JaniAutomaton) : Prop :=
  automaton_name a' = automaton_name a
  /\ automaton_variables a' = automaton_variables a
  /\ Forall2 same_edge_frame (automaton_edges a) (automaton_edges a').

Definition same_property_frame (p p' : JaniProperty) : Prop :=
  property_name p' = property_name p
  /\ map fst (property_operands p') = map fst (property_operands p).

(** The entry that [log_error] is given when an input does not
    translate (l.96-99). *)
Definition conversion_error_entry {collaborators : Collaborators}
    (input_scxml : ScxmlRoot) : LogEntry XmlOrigin :=
  {| log_origin := get_xml_origin input_scxml;
     log_message :=
       ("Error while converting SCXML model "
          ++ get_name input_scxml ++ ".")%string |}.

(** The guard [arr == y] with [y] undeclared, the guard [a == a] between
    identifiers only, and a model whose property does not resolve. *)
Definition undeclared_guard : JaniExpression :=
  Operator "="
    [("left", Identifier "ghost" None);
     ("right", ArrayValue [int_literal 1] None)]
    None.

Definition same_identifier_guard : JaniExpression :=
  Operator "=" [("left", Identifier "a" None); ("right", Identifier "a" None)]
    (Some "a against itself").

Definition swapped_scenario_guard : JaniExpression :=
  Operator "="
    [("right", ArrayValue [int_literal 1; int_literal 2] None);
     ("left", Identifier "arr" None)]
    (Some "guard of S1").

(** Collaborators as above, except that the statechart [sugared] is not
    plain. *)
Definition picky_collaborators : Collaborators :=
  {| ScxmlRoot := string;
     EventsHolder := list string;
     XmlOrigin := string;
     is_plain_scxml := fun name => negb (String.eqb name "sugared");
     get_name := fun name => name;
     get_xml_origin := fun name => name ++ ".scxml";
     new_events_holder := [];
     write_model := toy_write_model;
     add_jani_automaton := toy_add_jani_automaton;
     implement_scxml_events_as_jani_syncs := toy_syncs;
     remove_empty_self_loops_from_interface_handlers_in_jani := toy_prune;
     expand_random_variables_in_jani_model := toy_expand |}.

(** * Properties *)

(** ** The result monad and the traversals *)

Lemma bind_Ok_inv {A B : Type} (r : result A) (k : A -> result B) (b : B) :
  bind r k = Ok b -> exists a, r = Ok a /\ k a = Ok b.
Proof. destruct r as [a|e]; simpl; [eauto | discriminate]. Qed.

Lemma raised_Raise {A : Type} (e : Exception) : raised (@Raise A e).
Proof. by exists e. Qed.

Lemma raised_not_Ok {A : Type} (r : result A) (a : A) : raised r -> r <> Ok a.
Proof. intros [e ->]; discriminate. Qed.

Lemma bind_raised_l {A B : Type} (r : result A) (k : A -> result B) :
  raised r -> raised (bind r k).
Proof. intros [e ->]; apply raised_Raise. Qed.

Lemma bind_raised_r {A B : Type} (r : result A) (k : A -> result B) :
  (forall a, raised (k a)) -> raised (bind r k).
Proof. intros Hk; destruct r as [a|e]; simpl; [apply Hk | apply raised_Raise]. Qed.

Create HintDb raised.
#[local] Hint Resolve raised_Raise bind_raised_l bind_raised_r : raised.

Lemma mapM_raised {A B : Type} (f : A -> result B) (l : list A) (x : A) :
  In x l -> raised (f x) -> raised (mapM f l).
Proof.
  induction l as [|y l IH]; simpl; [tauto|].
  intros [->|Hin] Hx; [auto with raised|].
  destruct (f y); simpl; auto with raised.
Qed.

Lemma foldM_raised {A S : Type} (f : S -> A -> result S) (l : list A) (x : A) :
  In x l -> (forall s, raised (f s x)) -> forall s, raised (foldM f s l).
Proof.
  induction l as [|y l IH]; simpl; [tauto|].
  intros [->|Hin] Hx s; [auto with raised|].
  destruct (f s y); simpl; auto with raised.
Qed.

Lemma mapM_Ok_Forall2 {A B : Type} (f : A -> result B) (l : list A) (l' : list B) :
  mapM f l = Ok l' <-> Forall2 (fun x y => f x = Ok y) l l'.
Proof.
  revert l'; induction l as [|x l IH]; intros l'; simpl.
  - split; [intros [= <-]; constructor | by inversion 1].
  - split.
    + intros H. apply bind_Ok_inv in H as (y & Hy & H).
      apply bind_Ok_inv in H as (ys & Hys & [= <-]).
      constructor; [done | by apply IH].
    + inversion 1 as [|? y ? ys Hy Hys]; subst.
      apply IH in Hys. by rewrite Hy, Hys.
Qed.

Lemma foldM_invariant {A S : Type} (P : S -> Prop) (f : S -> A -> result S)
    (l : list A) :
  (forall s x s', P s -> f s x = Ok s' -> P s') ->
  forall s s', P s -> foldM f s l = Ok s' -> P s'.
Proof.
  intros Hf. induction l as [|x l IH]; simpl; intros s s' Hs H.
  - by injection H as <-.
  - apply bind_Ok_inv in H as (s1 & H1 & H). eauto.
Qed.

(** A traversal that succeeded succeeds again on its own output, with the
    same output, when each step does. *)
Lemma mapM_fixpoint {A : Type} (f : A -> result A) (l l' : list A) :
  (forall x y, In x l -> f x = Ok y -> f y = Ok y) ->
  mapM f l = Ok l' -> mapM f l' = Ok l'.
Proof.
  intros Hf H. apply mapM_Ok_Forall2 in H. apply mapM_Ok_Forall2.
  induction H as [|x y l l' Hxy _ IH]; constructor.
  - eapply Hf; [by left | done].
  - apply IH. intros x' y' Hin. apply Hf. by right.
Qed.

(** ** One expression *)

Section NormaliserProperties.

Context {helpers : ArrayHelpers}.


(** The normaliser at an operator, with its loop as a traversal. *)
Lemma normalise_Operator op ops c ctx :
  _preprocess_jani_expression (Operator op ops c) ctx =
    if is_expression_array (Operator op ops c) then Ok (Operator op ops c)
    else if existsb (fun kv => is_expression_array (snd kv)) ops
    then
      if String.eqb op "=" then _preprocess_array_comparison (Operator op ops c) ctx
      else Raise (AssertionError ArrayOperatorOutsideEquality)
    else
      try! new_operands := mapM (normalise_operand ctx) ops in
      Ok (Operator op new_operands c).
Proof.
  simpl. destruct (is_expression_array _); [done|].
  destruct (existsb _ _); [done|].
  f_equal. induction ops as [|[k v] ops IH]; simpl; [done|].
  unfold normalise_operand at 1; simpl.
  destruct (_preprocess_jani_expression v ctx); simpl; [|done].
  by rewrite IH.
Qed.

(** The loop of l.208-211 builds the conjunction of the specification. *)
Lemma comparison_chain_expected length_var array_id elements :
  comparison_chain length_var array_id elements =
    expected_conjunction length_var array_id elements (length elements).
Proof.
  unfold comparison_chain.
  generalize (length elements) at 1 3 as n.
  induction n as [|n IH]; [done|].
  rewrite seq_S, fold_left_app. simpl. by rewrite IH.
Qed.

(** Scanning an identifier that names a well-declared array. *)
Lemma scan_identifier ctx locals x cx v info :
  ctx !! x = Some v ->
  is_variable_array v = true ->
  get_array_info v = Some info ->
  scan_operand ctx locals (Identifier x cx) =
    let ids := map (fun d => get_array_length_var_name x (d + 1))
                 (seq 0 (array_dimensions info)) in
    if forallb (fun n => bool_decide (is_Some (ctx !! n))) ids
    then Ok {| array_elements := array_elements locals;
               array_var_id := Some x;
               array_length_var_ids := ids;
               array_operator := array_operator locals |}
    else Raise (AssertionError MissingLengthVariables).
Proof. intros Hx Hv Hi. unfold scan_operand; simpl. by rewrite Hx, Hv, Hi. Qed.

(** Scanning an array value. *)
Lemma scan_array_value ctx locals els ca :
  scan_operand ctx locals (ArrayValue els ca) =
    if forallb is_literal els
    then Ok {| array_elements := Some els;
               array_var_id := array_var_id locals;
               array_length_var_ids := array_length_var_ids locals;
               array_operator := Some "av" |}
    else Raise (AssertionError NonLiteralElements).
Proof. reflexivity. Qed.


(** C1.  An equality whose two operands are, in either order, an
    identifier naming a one-dimensional array variable and an array value
    of N literals is replaced by the conjunction that starts from
    [length_var == N] and conjoins, for i from 0 to N-1 in this order,
    [array_value[i] == array_access(array, i)]; the comment of the equality
    is put on the final conjunction.  The array value is what the array
    check recognises, the length variable is in the context as the
    registry's invariant has it. *)
Theorem array_equality_expansion ctx r1 r2 x cx els ca c ops v info :
  ops = [(r1, Identifier x cx); (r2, ArrayValue els ca)]
  \/ ops = [(r1, ArrayValue els ca); (r2, Identifier x cx)] ->
  is_expression_array (Operator "=" ops c) = false ->
  is_expression_array (ArrayValue els ca) = true ->
  ctx !! x = Some v ->
  is_variable_array v = true ->
  get_array_info v = Some info ->
  array_dimensions info = 1 ->
  is_Some (ctx !! get_array_length_var_name x 1) ->
  forallb is_literal els = true ->
  _preprocess_jani_expression (Operator "=" ops c) ctx =
    Ok (set_comment
          (expected_conjunction (get_array_length_var_name x 1) x els (length els))
          c).
Proof.
  intros Hops Hnode Hav Hx Hv Hinfo Hdim Hlen Hlit.
  rewrite normalise_Operator, Hnode.
  assert (existsb (fun kv => is_expression_array (snd kv)) ops = true) as ->.
  { destruct Hops as [-> | ->]; simpl; rewrite Hav; by rewrite ?orb_true_r. }
  simpl. unfold _preprocess_array_comparison; simpl.
  assert (forallb (fun n => bool_decide (is_Some (ctx !! n)))
            (map (fun d => get_array_length_var_name x (d + 1))
               (seq 0 (array_dimensions info))) = true) as Hall.
  { rewrite Hdim; simpl. by rewrite bool_decide_eq_true_2. }
  destruct Hops as [-> | ->]; simpl.
  - rewrite (scan_identifier _ _ _ _ _ _ Hx Hv Hinfo); simpl.
    rewrite Hall; simpl. rewrite scan_array_value, Hlit; simpl.
    rewrite Hdim; simpl. by rewrite comparison_chain_expected.
  - rewrite scan_array_value, Hlit; simpl.
    rewrite (scan_identifier _ _ _ _ _ _ Hx Hv Hinfo); simpl.
    rewrite Hall; simpl.
    rewrite Hdim; simpl. by rewrite comparison_chain_expected.
Qed.

(** C2, as the code has it.  At an operator that the array check does not
    take for an array itself: when the check recognises none of the
    operands, the node succeeds exactly when every operand does, and the
    result is the same operator under the same comment with every operand
    normalised, in the same order and under the same role; when the check
    recognises an operand, an equality goes to the array comparison and any
    other operator is an error.  The check is [is_expression_array], which
    is given the operand and not the variables in scope. *)
Theorem operator_normalisation op ops c ctx :
  is_expression_array (Operator op ops c) = false ->
  (existsb (fun kv => is_expression_array (snd kv)) ops = false ->
   forall r,
     _preprocess_jani_expression (Operator op ops c) ctx = Ok r <->
     exists ops',
       r = Operator op ops' c /\
       Forall2 (fun kv kv' =>
                  fst kv' = fst kv /\ _preprocess_jani_expression (snd kv) ctx = Ok (snd kv'))
               ops ops')
  /\ (existsb (fun kv => is_expression_array (snd kv)) ops = true ->
      _preprocess_jani_expression (Operator op ops c) ctx =
        if String.eqb op "=" then _preprocess_array_comparison (Operator op ops c) ctx
        else Raise (AssertionError ArrayOperatorOutsideEquality)).
Proof.
  intros Hnode. rewrite normalise_Operator, Hnode. split; intros Hops; rewrite Hops.
  - intros r. split.
    + intros H. apply bind_Ok_inv in H as (ops' & Hmap & [= <-]).
      exists ops'. split; [done|].
      apply mapM_Ok_Forall2 in Hmap. clear Hnode Hops.
      induction Hmap as [|kv kv' l l' H _ IH]; [constructor|].
      constructor; [|exact IH].
      unfold normalise_operand in H.
      apply bind_Ok_inv in H as (e' & He' & [= <-]). by simpl.
    + intros (ops' & -> & H).
      assert (mapM (normalise_operand ctx) ops = Ok ops') as ->; [|done].
      apply mapM_Ok_Forall2. clear Hnode Hops.
      induction H as [|kv [k' v'] l l' [Hk Hv] _ IH]; [constructor|].
      constructor; [|exact IH].
      unfold normalise_operand. simpl in *. by rewrite Hv, Hk.
  - done.
Qed.

(** Whatever the state of the loop, an operator is not accepted as an
    operand of an array comparison. *)
Lemma scan_Operator_raised ctx locals op ops c :
  raised (scan_operand ctx locals (Operator op ops c)).
Proof.
  unfold scan_operand; simpl.
  destruct (negb _); [apply raised_Raise|].
  destruct (list_find _ _); apply raised_Raise.
Qed.

Lemma misplaced_array_Operator e :
  misplaced_array e -> exists op ops c, e = Operator op ops c.
Proof. destruct 1; eauto. Qed.

(** C3.  An expression in which an operand recognised as an array sits
    under an operator other than equality, at the root or at any depth
    below operators, is not rewritten: normalisation raises.  When the
    operator is the root, what it raises is the assertion that array
    operators are for assignments and comparisons only. *)
Theorem array_under_other_operator_raises e ctx :
  is_expression_array e = false ->
  misplaced_array e ->
  raised (_preprocess_jani_expression e ctx)
  /\ forall op ops c,
      e = Operator op ops c ->
      op <> "=" ->
      existsb (fun kv => is_expression_array (snd kv)) ops = true ->
      _preprocess_jani_expression e ctx = Raise (AssertionError ArrayOperatorOutsideEquality).
Proof.
  intros Hroot Hmis. split.
  - induction Hmis as [op ops c Hop Hex|op ops c k v Hin Hv IH].
    + rewrite normalise_Operator, Hroot, Hex.
      apply String.eqb_neq in Hop. rewrite Hop. apply raised_Raise.
    + rewrite normalise_Operator, Hroot.
      destruct (existsb _ ops) eqn:Hex.
      * destruct (String.eqb op "=") eqn:Hop; [|apply raised_Raise].
        apply String.eqb_eq in Hop as ->.
        unfold _preprocess_array_comparison; simpl.
        apply bind_raised_l.
        apply misplaced_array_Operator in Hv as (op' & ops' & c' & ->).
        apply (foldM_raised _ _ (Operator op' ops' c')).
        -- apply in_map_iff. by exists (k, Operator op' ops' c').
        -- intros s. apply scan_Operator_raised.
      * apply bind_raised_l.
        apply (mapM_raised _ _ (k, v)); [done|].
        unfold normalise_operand; simpl. apply bind_raised_l, IH.
        destruct (is_expression_array v) eqn:Hfv; [|done].
        rewrite <- Hex. symmetry. apply existsb_exists. by exists (k, v).
  - intros op ops c -> Hop Hex.
    rewrite normalise_Operator, Hroot, Hex.
    apply String.eqb_neq in Hop. by rewrite Hop.
Qed.

(** C4, as the code has it.  For an equality between an identifier of a
    declared array and an array value of literals, in either order: the
    length variables of every dimension are looked up first, while the
    identifier is scanned, and a missing one is the error; the number of
    dimensions is examined afterwards, and only an array of exactly one
    dimension is expanded. *)
Theorem array_comparison_checks ctx r1 r2 x cx els ca c ops v info :
  ops = [(r1, Identifier x cx); (r2, ArrayValue els ca)]
  \/ ops = [(r1, ArrayValue els ca); (r2, Identifier x cx)] ->
  ctx !! x = Some v ->
  is_variable_array v = true ->
  get_array_info v = Some info ->
  forallb is_literal els = true ->
  _preprocess_array_comparison (Operator "=" ops c) ctx =
    if length_variables_present ctx x info
    then
      match array_dimensions info with
      | 1 =>
          Ok (set_comment
                (expected_conjunction (get_array_length_var_name x 1) x els
                   (length els)) c)
      | _ => Raise (AssertionError MultiDimensionalUnsupported)
      end
    else Raise (AssertionError MissingLengthVariables).
Proof.
  intros Hops Hx Hv Hinfo Hlit.
  unfold _preprocess_array_comparison, length_variables_present.
  destruct Hops as [-> | ->]; simpl.
  - rewrite (scan_identifier _ _ _ _ _ _ Hx Hv Hinfo); simpl.
    destruct (forallb (fun n => bool_decide _) _); simpl; [|done].
    rewrite scan_array_value, Hlit; simpl.
    destruct (array_dimensions info) as [|[|n]]; simpl; try done.
    by rewrite comparison_chain_expected.
  - rewrite scan_array_value, Hlit; simpl.
    rewrite (scan_identifier _ _ _ _ _ _ Hx Hv Hinfo); simpl.
    destruct (forallb (fun n => bool_decide _) _); simpl; [|done].
    destruct (array_dimensions info) as [|[|n]]; simpl; try done.
    by rewrite comparison_chain_expected.
Qed.

(** C5.  An equality with an array value holding an element that is not a
    literal is not expanded: normalisation raises, whatever the other
    operands are; and between such an array value and an identifier of a
    declared array, in either order, what it raises is the assertion on
    non-literal elements. *)
Theorem non_literal_element_raises ctx ops c role els ca :
  In (role, ArrayValue els ca) ops ->
  forallb is_literal els = false ->
  is_expression_array (Operator "=" ops c) = false ->
  is_expression_array (ArrayValue els ca) = true ->
  raised (_preprocess_jani_expression (Operator "=" ops c) ctx)
  /\ forall r1 r2 x cx v info,
      ops = [(r1, Identifier x cx); (r2, ArrayValue els ca)]
      \/ ops = [(r1, ArrayValue els ca); (r2, Identifier x cx)] ->
      ctx !! x = Some v ->
      is_variable_array v = true ->
      get_array_info v = Some info ->
      length_variables_present ctx x info = true ->
      _preprocess_jani_expression (Operator "=" ops c) ctx
      = Raise (AssertionError NonLiteralElements).
Proof.
  intros Hin Hlit Hnode Hav.
  rewrite normalise_Operator, Hnode.
  assert (existsb (fun kv => is_expression_array (snd kv)) ops = true) as ->.
  { apply existsb_exists. by exists (role, ArrayValue els ca). }
  simpl. unfold _preprocess_array_comparison; simpl. split.
  - apply bind_raised_l.
    apply (foldM_raised _ _ (ArrayValue els ca)).
    + apply in_map_iff. by exists (role, ArrayValue els ca).
    + intros s. rewrite scan_array_value, Hlit. apply raised_Raise.
  - intros r1 r2 x cx v info Hops Hx Hv Hinfo Hlen.
    destruct Hops as [-> | ->]; simpl.
    + rewrite (scan_identifier _ _ _ _ _ _ Hx Hv Hinfo); simpl.
      unfold length_variables_present in Hlen. rewrite Hlen; simpl.
      by rewrite scan_array_value, Hlit.
    + by rewrite scan_array_value, Hlit.
Qed.

(** What a successful turn of the loop has seen and assigned. *)
Lemma scan_Ok_inv ctx locals operand locals' :
  scan_operand ctx locals operand = Ok locals' ->
  (exists x cx,
      operand = Identifier x cx /\
      array_operator locals' = array_operator locals /\
      array_var_id locals' = Some x)
  \/ (exists els ca,
        operand = ArrayValue els ca /\
        array_operator locals' = Some "av" /\
        array_var_id locals' = array_var_id locals).
Proof.
  destruct operand as [v c|x cx|op ops c|els ca].
  - discriminate.
  - unfold scan_operand; simpl. intros H. left. exists x, cx.
    destruct (ctx !! x) as [var|]; [|discriminate].
    destruct (negb _); [discriminate|].
    destruct (get_array_info var); [|discriminate].
    destruct (forallb _ _); [|discriminate].
    by injection H as <-.
  - intros H. by destruct (raised_not_Ok _ locals' (scan_Operator_raised ctx locals op ops c)).
  - rewrite scan_array_value. intros H. right. exists els, ca.
    destruct (forallb _ _); [|discriminate]. by injection H as <-.
Qed.

(** C10.  An equality between two array values is not expanded: it raises,
    on the elements when one of them is not a literal and for want of an
    array variable otherwise.  An equality of two operands that is expanded
    has one identifier and one array value. *)
Theorem array_values_equality_raises ctx r1 r2 els1 c1 els2 c2 c :
  is_expression_array
    (Operator "=" [(r1, ArrayValue els1 c1); (r2, ArrayValue els2 c2)] c) = false ->
  is_expression_array (ArrayValue els1 c1) = true
  \/ is_expression_array (ArrayValue els2 c2) = true ->
  _preprocess_jani_expression (Operator "=" [(r1, ArrayValue els1 c1); (r2, ArrayValue els2 c2)] c) ctx
  = Raise (AssertionError
             (if forallb is_literal els1 && forallb is_literal els2
              then NoArrayVariable else NonLiteralElements))
  /\ forall o1 o2 r,
      _preprocess_array_comparison (Operator "=" [(r1, o1); (r2, o2)] c) ctx = Ok r ->
      exists x cx els ca,
        (o1 = Identifier x cx /\ o2 = ArrayValue els ca)
        \/ (o1 = ArrayValue els ca /\ o2 = Identifier x cx).
Proof.
  intros Hnode Hav. split.
  - rewrite normalise_Operator, Hnode.
    assert (existsb (fun kv => is_expression_array (snd kv))
              [(r1, ArrayValue els1 c1); (r2, ArrayValue els2 c2)] = true) as ->.
    { simpl. destruct Hav as [-> | ->]; by rewrite ?orb_true_r. }
    simpl. unfold _preprocess_array_comparison; simpl.
    rewrite scan_array_value. destruct (forallb is_literal els1); simpl; [|done].
    rewrite scan_array_value. by destruct (forallb is_literal els2).
  - intros o1 o2 r H.
    unfold _preprocess_array_comparison in H; simpl in H.
    apply bind_Ok_inv in H as (locals & Hfold & H).
    apply bind_Ok_inv in Hfold as (s1 & H1 & Hfold).
    apply bind_Ok_inv in Hfold as (s2 & H2 & [= ->]).
    apply scan_Ok_inv in H1 as [(x & cx & -> & Hop1 & Hid1)|(els & ca & -> & Hop1 & Hid1)];
      apply scan_Ok_inv in H2 as [(x' & cx' & -> & Hop2 & Hid2)|(els' & ca' & -> & Hop2 & Hid2)].
    + rewrite Hop2, Hop1 in H. discriminate.
    + eauto 10.
    + eauto 10.
    + rewrite Hop2, Hid2, Hid1 in H. discriminate.
Qed.

(** *** Normalising twice *)

(** The elements the loop keeps are literals. *)
Lemma scan_elements_literal ctx locals operand locals' :
  (forall els, array_elements locals = Some els -> forallb is_literal els = true) ->
  scan_operand ctx locals operand = Ok locals' ->
  forall els, array_elements locals' = Some els -> forallb is_literal els = true.
Proof.
  intros Hinv H. destruct operand as [v c|x cx|op ops c|els0 ca].
  - discriminate.
  - unfold scan_operand in H; simpl in H.
    destruct (ctx !! x) as [var|]; [|discriminate].
    destruct (negb _); [discriminate|].
    destruct (get_array_info var); [|discriminate].
    destruct (forallb _ _); [|discriminate].
    by injection H as <-.
  - by destruct (raised_not_Ok _ locals' (scan_Operator_raised ctx locals op ops c)).
  - rewrite scan_array_value in H.
    destruct (forallb is_literal els0) eqn:Hlit; [|discriminate].
    injection H as <-. simpl. by intros els [= <-].
Qed.

(** What an array comparison returns is a conjunction chain over
    literals, under the comment of the equality. *)
Lemma compare_arrays_Ok_inv op ops c ctx e' :
  _preprocess_array_comparison (Operator op ops c) ctx = Ok e' ->
  exists length_var id els,
    e' = set_comment (comparison_chain length_var id els) c
    /\ forallb is_literal els = true.
Proof.
  unfold _preprocess_array_comparison; simpl.
  destruct (negb _); [discriminate|].
  intros H. apply bind_Ok_inv in H as (locals & Hfold & H).
  assert (forall els, array_elements locals = Some els ->
                      forallb is_literal els = true) as Hlit.
  { eapply (foldM_invariant
              (fun st => forall els, array_elements st = Some els ->
                                     forallb is_literal els = true));
      [| |exact Hfold].
    - intros st o st' Hst Hscan. eapply scan_elements_literal; eauto.
    - discriminate. }
  destruct (array_operator locals); [|discriminate].
  destruct (array_var_id locals) as [id|]; [|discriminate].
  destruct (array_elements locals) as [els|]; [|discriminate].
  destruct (array_length_var_ids locals) as [|length_var [|? ?]]; try discriminate.
  injection H as <-. exists length_var, id, els. split; [done | by apply Hlit].
Qed.

Section Stable.

Hypothesis only_array_values :
  recognises_only_array_values.

Variable ctx : Registry.

(** An expression the array check does not recognise and that
    normalisation returns as it is. *)
#[local] Abbreviation stable e :=
  (is_expression_array e = false /\ _preprocess_jani_expression e ctx = Ok e).

Lemma not_array_Operator op ops c :
  is_expression_array (Operator op ops c) = false.
Proof.
  destruct (is_expression_array _) eqn:H; [|done].
  apply only_array_values in H as (? & ? & ?). discriminate.
Qed.

Lemma stable_Literal v c : stable (Literal v c).
Proof.
  split; [|done]. destruct (is_expression_array _) eqn:H; [|done].
  apply only_array_values in H as (? & ? & ?). discriminate.
Qed.

Lemma stable_Identifier x c : stable (Identifier x c).
Proof.
  split; [|done]. destruct (is_expression_array _) eqn:H; [|done].
  apply only_array_values in H as (? & ? & ?). discriminate.
Qed.

Lemma stable_Operator op ops c :
  Forall (fun kv => stable (snd kv)) ops -> stable (Operator op ops c).
Proof.
  intros Hops. split; [apply not_array_Operator|].
  rewrite normalise_Operator, not_array_Operator.
  assert (existsb (fun kv => is_expression_array (snd kv)) ops = false) as ->.
  { induction Hops as [|kv l [Hkv _] _ IH]; simpl; [done|]. by rewrite Hkv, IH. }
  assert (mapM (normalise_operand ctx) ops = Ok ops) as ->; [|done].
  induction Hops as [|[k v] l [_ Hkv] _ IH]; simpl; [done|].
  unfold normalise_operand at 1; simpl in *. by rewrite Hkv, IH.
Qed.

Lemma stable_literal_element els j :
  forallb is_literal els = true -> stable (nth j els (literal_of_nat 0)).
Proof.
  intros Hlit.
  assert (is_literal (nth j els (literal_of_nat 0)) = true) as H.
  { destruct (Nat.lt_ge_cases j (length els)) as [Hj|Hj].
    - rewrite forallb_forall in Hlit. apply Hlit, nth_In, Hj.
    - by rewrite nth_overflow. }
  destruct (nth j els _); try discriminate. apply stable_Literal.
Qed.

(** The conjunction built by the expansion is returned as it is, under
    any comment. *)
Lemma stable_expected_conjunction length_var id els i c :
  forallb is_literal els = true ->
  stable (set_comment (expected_conjunction length_var id els i) c).
Proof.
  intros Hlit.
  assert (forall j c', stable (set_comment
                                 (expected_conjunction length_var id els j) c'))
    as H; [|apply H].
  induction j as [|j IH]; intros c'; simpl; apply stable_Operator.
  - repeat constructor; simpl; (apply stable_Identifier || apply stable_Literal).
  - specialize (IH None).
    replace (set_comment (expected_conjunction length_var id els j) None)
      with (expected_conjunction length_var id els j) in IH by (by destruct j).
    constructor; [exact IH|].
    constructor; [|constructor]. simpl.
    apply stable_Operator. constructor; [by apply stable_literal_element|].
    constructor; [|constructor]. simpl.
    apply stable_Operator. repeat constructor; simpl;
      (apply stable_Identifier || apply stable_Literal).
Qed.

(** The result of normalising an expression is stable, unless the
    expression is an array value given as it is. *)
Lemma normalise_stable e e' :
  _preprocess_jani_expression e ctx = Ok e' ->
  (is_expression_array e = false -> is_expression_array e' = false)
  /\ _preprocess_jani_expression e' ctx = Ok e'.
Proof.
  revert e'. induction e as [v c|x c|op ops c IH|els c _]
    using JaniExpression_nested_ind; intros e' H.
  - injection H as <-. done.
  - injection H as <-. done.
  - rewrite normalise_Operator, not_array_Operator in H.
    destruct (existsb _ ops) eqn:Hex.
    + destruct (String.eqb op "="); [|discriminate].
      apply compare_arrays_Ok_inv in H as (length_var & id & elements & -> & Hlit).
      rewrite comparison_chain_expected.
      destruct (stable_expected_conjunction length_var id elements
                  (length elements) c Hlit) as [Hf Hn].
      done.
    + apply bind_Ok_inv in H as (ops' & Hmap & [= <-]).
      enough (Forall (fun kv => stable (snd kv)) ops') as Hstable.
      { destruct (stable_Operator op ops' c Hstable). done. }
      apply mapM_Ok_Forall2 in Hmap.
      induction Hmap as [|[k v] [k' v'] l l' Hkv _ IHl]; [constructor|].
      apply Forall_cons in IH as [IHv IH]. simpl in Hex.
      apply orb_false_elim in Hex as [Hv Hex].
      constructor; [|by apply IHl].
      unfold normalise_operand in Hkv; simpl in *.
      apply bind_Ok_inv in Hkv as (e1 & He1 & [= <- <-]).
      destruct (IHv _ He1) as [Hf Hn]. split; [by apply Hf | done].
  - simpl in H. destruct (is_expression_array (ArrayValue els c)) eqn:Hf;
      [|discriminate].
    injection H as <-. split; [by rewrite Hf|].
    simpl. by rewrite Hf.
Qed.

(** Normalising a normalised expression gives it back. *)
Lemma normalise_idempotent e e' :
  _preprocess_jani_expression e ctx = Ok e' -> _preprocess_jani_expression e' ctx = Ok e'.
Proof. intros H. by apply normalise_stable in H as [_ H]. Qed.

End Stable.

End NormaliserProperties.

(** The scenario of the specification: [arr == [1, 2]] becomes
    [arr_length_1 == 2 ∧ 1 == arr[0] ∧ 2 == arr[1]]. *)
Lemma array_equality_expansion_witness :
  _preprocess_jani_expression (helpers := reference_helpers)
    scenario_guard scenario_context
  = Ok scenario_guard_expanded.
Proof.
  apply (array_equality_expansion (helpers := reference_helpers)
           scenario_context "left" "right" "arr" None
           [int_literal 1; int_literal 2] None (Some "guard of S1") _
           (array_variable "arr" [5])
           {| array_dimensions := 1; array_max_sizes := [5] |}).
  - left; reflexivity.
  - reflexivity.
  - reflexivity.
  - reflexivity.
  - reflexivity.
  - reflexivity.
  - reflexivity.
  - vm_compute. eexists; reflexivity.
  - reflexivity.
Defined.

(** The array value [[1]] added to 2, itself an operand of a product. *)
Lemma array_under_other_operator_raises_witness :
  raised
    (_preprocess_jani_expression (helpers := reference_helpers)
       (Operator "*"
          [("left", Identifier "x" None);
           ("right",
            Operator "+" [("left", ArrayValue [int_literal 1] None);
                          ("right", int_literal 2)] None)] None)
       scenario_context).
Proof.
  refine (proj1 (array_under_other_operator_raises
                   (helpers := reference_helpers) _ scenario_context _ _)).
  - reflexivity.
  - eapply misplaced_below; [right; left; reflexivity|].
    apply misplaced_here; [discriminate | reflexivity].
Defined.

(** The operator [x + 1] is rebuilt from its operands. *)
Lemma operator_normalisation_witness :
  _preprocess_jani_expression (helpers := reference_helpers)
    (Operator "+" [("left", Identifier "x" None); ("right", int_literal 1)]
       (Some "sum"))
    scenario_context
  = Ok (Operator "+" [("left", Identifier "x" None); ("right", int_literal 1)]
          (Some "sum")).
Proof.
  apply (operator_normalisation (helpers := reference_helpers)
           "+" [("left", Identifier "x" None); ("right", int_literal 1)]
           (Some "sum") scenario_context).
  - reflexivity.
  - reflexivity.
  - eexists. split; [reflexivity|].
    repeat constructor.
Defined.

(** C2 as stated fails.  The claim lets an operand that is an identifier
    of an array-typed variable send the node to the array comparison, and
    lets a node without array operands be rebuilt from its operands.  For
    [a == b] the first asks for the outcome of the array comparison where
    [a] is declared an array, the second for the node itself where [a] and
    [b] are integers.  With the check that recognises array values the
    node is rebuilt where [a] is an array; and no check on the operand
    alone gives both. *)
Lemma dispatch_cannot_follow_variable_types :
  (context_a_array !! "a" = Some (array_variable "a" [5])
   /\ _preprocess_jani_expression (helpers := reference_helpers) identifiers_guard context_a_array
      = Ok identifiers_guard
   /\ _preprocess_array_comparison (helpers := reference_helpers)
        identifiers_guard context_a_array
      = Raise (AssertionError VariableNotArray))
  /\ ~ exists is_expression_array : JaniExpression -> bool,
        _preprocess_jani_expression
          (helpers := helpers_with is_expression_array) identifiers_guard context_a_array
        = _preprocess_array_comparison (helpers := reference_helpers)
            identifiers_guard context_a_array
        /\ _preprocess_jani_expression
          (helpers := helpers_with is_expression_array) identifiers_guard context_a_int
           = Ok identifiers_guard.
Proof.
  split; [repeat split; reflexivity|].
  intros (f & Harray & Hint).
  unfold identifiers_guard in *.
  rewrite normalise_Operator in Harray, Hint.
  destruct (is_expression_array (Operator _ _ _)).
  - vm_compute in Harray. discriminate.
  - destruct (existsb _ _).
    + vm_compute in Hint. discriminate.
    + vm_compute in Harray. discriminate.
Qed.

(** C3 as stated fails.  Where [a] is declared an array, [a + 1] has an
    array operand under an operator other than equality.  With the check
    that recognises array values it is returned as it is; and no check on
    the operand alone raises there and still returns [a + 1] where [a] is
    an integer. *)
Lemma array_identifier_under_sum_not_rejected :
  (context_a_array !! "a" = Some (array_variable "a" [5])
   /\ _preprocess_jani_expression (helpers := reference_helpers) identifier_sum context_a_array
      = Ok identifier_sum)
  /\ ~ exists is_expression_array : JaniExpression -> bool,
        raised (_preprocess_jani_expression
          (helpers := helpers_with is_expression_array) identifier_sum context_a_array)
        /\ _preprocess_jani_expression
          (helpers := helpers_with is_expression_array) identifier_sum context_a_int
           = Ok identifier_sum.
Proof.
  split; [split; reflexivity|].
  intros (f & [e Harray] & Hint).
  unfold identifier_sum in *.
  rewrite normalise_Operator in Harray, Hint.
  destruct (is_expression_array (Operator _ _ _)); [discriminate|].
  destruct (existsb _ _).
  - vm_compute in Hint. discriminate.
  - vm_compute in Harray. discriminate.
Qed.

(** A matrix with all its length variables: the number of dimensions is
    what stops the expansion. *)
Lemma array_comparison_checks_witness :
  _preprocess_array_comparison (helpers := reference_helpers)
    matrix_guard context_matrix_complete
  = Raise (AssertionError MultiDimensionalUnsupported).
Proof.
  apply (array_comparison_checks (helpers := reference_helpers)
           context_matrix_complete "left" "right" "m" None [int_literal 1] None
           None _ (array_variable "m" [3; 3])
           {| array_dimensions := 2; array_max_sizes := [3; 3] |}).
  - left; reflexivity.
  - reflexivity.
  - reflexivity.
  - reflexivity.
  - reflexivity.
Defined.

(** C4 as stated fails.  The matrix [m] has two dimensions, and the length
    variable of the second is not in the context: the comparison
    [m == [1]] ends on the missing length variable, not on the number of
    dimensions. *)
Lemma length_lookup_precedes_dimension_check :
  (exists info,
      (context_matrix !! "m") ≫= get_array_info = Some info
      /\ array_dimensions info = 2)
  /\ _preprocess_array_comparison (helpers := reference_helpers)
       matrix_guard context_matrix
     = Raise (AssertionError MissingLengthVariables)
  /\ _preprocess_array_comparison (helpers := reference_helpers)
       matrix_guard context_matrix
     <> Raise (AssertionError MultiDimensionalUnsupported).
Proof.
  split; [eexists; split; reflexivity|].
  split; [reflexivity | discriminate].
Qed.

(** [arr == [x + 1]] ends on the assertion on non-literal elements. *)
Lemma non_literal_element_raises_witness :
  _preprocess_jani_expression (helpers := reference_helpers)
    computed_element_guard scenario_context
  = Raise (AssertionError NonLiteralElements).
Proof.
  refine (proj2 (non_literal_element_raises (helpers := reference_helpers) scenario_context _ None "right" _ None
                   _ _ _ _)
            "left" "right" "arr" None (array_variable "arr" [5])
            {| array_dimensions := 1; array_max_sizes := [5] |} _ _ _ _ _).
  - right; left; reflexivity.
  - reflexivity.
  - reflexivity.
  - reflexivity.
  - left; reflexivity.
  - reflexivity.
  - reflexivity.
  - reflexivity.
  - reflexivity.
Defined.

(** [[1] == [2]] ends for want of an array variable. *)
Lemma array_values_equality_raises_witness :
  _preprocess_jani_expression (helpers := reference_helpers)
    array_values_guard scenario_context
  = Raise (AssertionError NoArrayVariable).
Proof.
  refine (proj1 (array_values_equality_raises (helpers := reference_helpers) scenario_context "left" "right"
                   [int_literal 1] None [int_literal 2] None None _ _)).
  - reflexivity.
  - left; reflexivity.
Defined.

(** ** A whole model *)

Lemma dict_or_lookup (globals locals : Registry) (x : string) :
  dict_or globals locals !! x =
    match locals !! x with
    | Some v => Some v
    | None => globals !! x
    end.
Proof.
  unfold dict_or. rewrite lookup_union.
  destruct (locals !! x), (globals !! x); reflexivity.
Qed.

Section ModelProperties.

Context {helpers : ArrayHelpers}.


(** *** Which variables an expression is normalised against *)

Lemma preprocess_guard_expressions ctx g g' :
  preprocess_guard ctx g = Ok g' ->
  Forall2 (fun e e' => _preprocess_jani_expression e ctx = Ok e')
    (guard_expressions g) (guard_expressions g').
Proof.
  destruct g as [[[e|]]|]; simpl; intros H.
  - apply bind_Ok_inv in H as (e' & He' & [= <-]). simpl. by repeat constructor.
  - injection H as <-. constructor.
  - injection H as <-. constructor.
Qed.

Lemma preprocess_destination_expressions ctx d d' :
  preprocess_destination ctx d = Ok d' ->
  Forall2 (fun e e' => _preprocess_jani_expression e ctx = Ok e')
    (destination_expressions d) (destination_expressions d').
Proof.
  unfold preprocess_destination, destination_expressions. intros H.
  apply bind_Ok_inv in H as (l' & Hmap & [= <-]). simpl.
  apply mapM_Ok_Forall2 in Hmap.
  induction Hmap as [|a a' l l' Ha _ IH]; simpl; constructor; [|exact IH].
  unfold preprocess_assignment in Ha.
  apply bind_Ok_inv in Ha as (e' & He' & [= <-]). done.
Qed.

Lemma preprocess_edge_expressions ctx ed ed' :
  preprocess_edge ctx ed = Ok ed' ->
  Forall2 (fun e e' => _preprocess_jani_expression e ctx = Ok e')
    (edge_expressions ed) (edge_expressions ed').
Proof.
  unfold preprocess_edge, edge_expressions. intros H.
  apply bind_Ok_inv in H as (g' & Hg & H).
  apply bind_Ok_inv in H as (ds' & Hds & [= <-]). simpl.
  apply Forall2_app; [by apply preprocess_guard_expressions|].
  apply mapM_Ok_Forall2 in Hds.
  induction Hds as [|d d' l l' Hd _ IH]; simpl; [constructor|].
  apply Forall2_app; [by apply preprocess_destination_expressions | exact IH].
Qed.

(** C8.  In a model that normalisation has rewritten, every expression of
    an edge (guard and assigned values) is the normal form of the
    expression at the same place, taken in the union of the global
    variables and the variables of the automaton of the edge, and every
    operand of a property is the normal form of the operand under the same
    role, taken in the global variables alone.  In the union a name is
    looked up among the variables of the automaton and, when it is not
    there, among the global ones. *)
Theorem resolution_contexts m m' :
  preprocess_jani_expressions m = Ok m' ->
  Forall2
    (fun a a' =>
       Forall2
         (fun ed ed' =>
            Forall2
              (fun e e' =>
                 _preprocess_jani_expression e (dict_or (model_variables m) (automaton_variables a))
                 = Ok e')
              (edge_expressions ed) (edge_expressions ed'))
         (automaton_edges a) (automaton_edges a'))
    (model_automata m) (model_automata m')
  /\ Forall2
       (fun p p' =>
          Forall2
            (fun kv kv' =>
               fst kv' = fst kv
               /\ _preprocess_jani_expression (snd kv) (model_variables m) = Ok (snd kv'))
            (property_operands p) (property_operands p'))
       (model_properties m) (model_properties m')
  /\ forall a x,
      dict_or (model_variables m) (automaton_variables a) !! x =
        match automaton_variables a !! x with
        | Some v => Some v
        | None => model_variables m !! x
        end.
Proof.
  unfold preprocess_jani_expressions. intros H.
  apply bind_Ok_inv in H as (automata' & Ha & H).
  apply bind_Ok_inv in H as (properties' & Hp & [= <-]). simpl.
  split; [|split].
  - apply mapM_Ok_Forall2 in Ha.
    induction Ha as [|a a' l l' H _ IH]; constructor; [|exact IH].
    unfold preprocess_automaton in H.
    apply bind_Ok_inv in H as (edges' & He & [= <-]). simpl.
    apply mapM_Ok_Forall2 in He.
    induction He as [|ed ed' es es' H _ IHe]; constructor; [|exact IHe].
    by apply preprocess_edge_expressions.
  - apply mapM_Ok_Forall2 in Hp.
    induction Hp as [|p p' l l' H _ IH]; constructor; [|exact IH].
    unfold preprocess_property in H.
    apply bind_Ok_inv in H as (ops' & Ho & [= <-]). simpl.
    apply mapM_Ok_Forall2 in Ho.
    induction Ho as [|kv kv' os os' H _ IHo]; constructor; [|exact IHo].
    apply bind_Ok_inv in H as (e' & He' & [= <-]). done.
  - intros a x. apply dict_or_lookup.
Qed.

(** *** Normalising twice *)

Section Twice.

Hypothesis only_array_values :
  recognises_only_array_values.

Lemma preprocess_assignment_idempotent ctx a a' :
  preprocess_assignment ctx a = Ok a' -> preprocess_assignment ctx a' = Ok a'.
Proof.
  unfold preprocess_assignment. intros H.
  apply bind_Ok_inv in H as (e' & He' & [= <-]). simpl.
  by rewrite (normalise_idempotent only_array_values _ _ _ He').
Qed.

Lemma preprocess_destination_idempotent ctx d d' :
  preprocess_destination ctx d = Ok d' -> preprocess_destination ctx d' = Ok d'.
Proof.
  unfold preprocess_destination. intros H.
  apply bind_Ok_inv in H as (l' & Hmap & [= <-]). simpl.
  rewrite (mapM_fixpoint _ _ _
             (fun a a' _ => preprocess_assignment_idempotent ctx a a') Hmap).
  done.
Qed.

Lemma preprocess_guard_idempotent ctx g g' :
  preprocess_guard ctx g = Ok g' -> preprocess_guard ctx g' = Ok g'.
Proof.
  destruct g as [[[e|]]|]; simpl; intros H.
  - apply bind_Ok_inv in H as (e' & He' & [= <-]). simpl.
    by rewrite (normalise_idempotent only_array_values _ _ _ He').
  - by injection H as <-.
  - by injection H as <-.
Qed.

Lemma preprocess_edge_idempotent ctx ed ed' :
  preprocess_edge ctx ed = Ok ed' -> preprocess_edge ctx ed' = Ok ed'.
Proof.
  unfold preprocess_edge. intros H.
  apply bind_Ok_inv in H as (g' & Hg & H).
  apply bind_Ok_inv in H as (ds' & Hds & [= <-]). simpl.
  rewrite (preprocess_guard_idempotent _ _ _ Hg). simpl.
  rewrite (mapM_fixpoint _ _ _
             (fun d d' _ => preprocess_destination_idempotent ctx d d') Hds).
  done.
Qed.

Lemma preprocess_automaton_idempotent globals a a' :
  preprocess_automaton globals a = Ok a' -> preprocess_automaton globals a' = Ok a'.
Proof.
  unfold preprocess_automaton. intros H.
  apply bind_Ok_inv in H as (es' & Hes & [= <-]). simpl.
  cbv zeta in Hes |- *.
  rewrite (mapM_fixpoint (preprocess_edge _) _ _
             (fun ed ed' _ => preprocess_edge_idempotent _ ed ed') Hes).
  done.
Qed.

Lemma preprocess_property_idempotent globals p p' :
  preprocess_property globals p = Ok p' -> preprocess_property globals p' = Ok p'.
Proof.
  unfold preprocess_property. intros H.
  apply bind_Ok_inv in H as (ops' & Hops & [= <-]). simpl.
  erewrite mapM_fixpoint; [done| |exact Hops].
  intros kv kv' _ Hkv.
  apply bind_Ok_inv in Hkv as (e' & He' & [= <-]). simpl.
  by rewrite (normalise_idempotent only_array_values _ _ _ He').
Qed.

End Twice.

(** C7.  Normalising a normalised model gives it back: every guard, every
    assigned value and every operand of a property is left as it is.  The
    array check takes nothing but array values for arrays. *)
Theorem normalisation_idempotent m m' :
  recognises_only_array_values ->
  preprocess_jani_expressions m = Ok m' ->
  preprocess_jani_expressions m' = Ok m'.
Proof.
  intros Hf. unfold preprocess_jani_expressions. intros H.
  apply bind_Ok_inv in H as (automata' & Ha & H).
  apply bind_Ok_inv in H as (properties' & Hp & [= <-]). simpl.
  cbv zeta in Ha, Hp |- *.
  rewrite (mapM_fixpoint (preprocess_automaton _) _ _
             (fun a a' _ => preprocess_automaton_idempotent Hf _ a a') Ha).
  simpl.
  rewrite (mapM_fixpoint (preprocess_property _) _ _
             (fun q q' _ => preprocess_property_idempotent Hf _ q q') Hp).
  done.
Qed.

End ModelProperties.

Lemma is_array_value_only :
  recognises_only_array_values (helpers := reference_helpers).
Proof. intros [v c|x c|op ops c|els c] H; try discriminate. eauto. Qed.

(** The model of the scenario is normalised into the expected one, which a
    second normalisation gives back. *)
Lemma normalisation_idempotent_witness :
  preprocess_jani_expressions (helpers := reference_helpers)
    (scenario_model [global_array_property])
  = Ok scenario_model_normalised
  /\ preprocess_jani_expressions (helpers := reference_helpers)
       scenario_model_normalised
     = Ok scenario_model_normalised.
Proof.
  assert (preprocess_jani_expressions (helpers := reference_helpers) (scenario_model [global_array_property])
          = Ok scenario_model_normalised) as H by reflexivity.
  split; [exact H|].
  exact (normalisation_idempotent (helpers := reference_helpers)
           _ _ is_array_value_only H).
Defined.

(** In the scenario the guard on the array of the automaton and the
    property on the global array are both expanded. *)
Lemma resolution_contexts_witness :
  Forall2
    (fun a a' =>
       Forall2
         (fun ed ed' =>
            Forall2
              (fun e e' =>
                 _preprocess_jani_expression (helpers := reference_helpers) e
                   (dict_or scenario_globals (automaton_variables a))
                 = Ok e')
              (edge_expressions ed) (edge_expressions ed'))
         (automaton_edges a) (automaton_edges a'))
    [scenario_automaton] (model_automata scenario_model_normalised).
Proof.
  refine (proj1 (resolution_contexts (helpers := reference_helpers) (scenario_model [global_array_property])
                   scenario_model_normalised _)).
  reflexivity.
Defined.

(** The same comparison on the array of the automaton is not resolved in a
    property: the name is not among the global variables. *)
Example local_array_in_property_unresolved :
  preprocess_jani_expressions (helpers := reference_helpers)
    (scenario_model [local_array_property])
  = Raise (AssertionError VariableNotInContext).
Proof. reflexivity. Qed.

(** ** The assembler *)

Section AssemblerProperties.

Context {collaborators : Collaborators}.

(** The inputs are taken from left to right: the loop over a sequence is
    the loop over its first part followed, when that succeeds, by the loop
    over the rest from the model, the registry and the log reached. *)
Lemma fold_inputs_app pre rest max_array_size m ev log :
  fold_inputs (pre ++ rest)%list max_array_size m ev log =
    match fold_inputs pre max_array_size m ev log with
    | (log', Ok (m', ev')) => fold_inputs rest max_array_size m' ev' log'
    | (log', Raise e) => (log', Raise e)
    end.
Proof.
  revert m ev log. induction pre as [|x pre IH]; intros m ev log; simpl; [done|].
  destruct (negb _); [done|].
  destruct (convert_scxml_root_to_jani_automaton _ _ _) as [[a ev']|e];
    [|done].
  destruct (add_jani_automaton m a) as [m'|e]; [|done].
  apply IH.
Qed.

(** Nothing is logged while the inputs translate. *)
Lemma fold_inputs_Ok_log scxmls max_array_size m ev log log' r :
  fold_inputs scxmls max_array_size m ev log = (log', Ok r) -> log' = log.
Proof.
  revert m ev. induction scxmls as [|x l IH]; intros m ev; simpl.
  - by intros [= <- _].
  - destruct (negb _); [discriminate|].
    destruct (convert_scxml_root_to_jani_automaton _ _ _) as [[a ev']|e];
      [|discriminate].
    destruct (add_jani_automaton m a) as [m'|e]; [|discriminate].
    apply IH.
Qed.

(** C6.  Once every input is folded into the model, the assembly runs
    three passes and no other, each on the model that the one before
    returned: the synthesis of the synchronisation edges, given the event
    registry, then the pruning of the self loops, then the expansion of the
    random choices, with 100 options.  What the last one returns is the
    result; nothing is logged. *)
Theorem passes_after_folding scxmls max_array_size log log' m ev :
  fold_inputs scxmls max_array_size base_model new_events_holder log
  = (log', Ok (m, ev)) ->
  convert_multiple_scxmls_to_jani scxmls max_array_size log =
    (log,
     try! with_syncs :=
       implement_scxml_events_as_jani_syncs ev max_array_size m in
     try! pruned :=
       remove_empty_self_loops_from_interface_handlers_in_jani with_syncs in
     expand_random_variables_in_jani_model pruned 100).
Proof.
  intros H. unfold convert_multiple_scxmls_to_jani. rewrite H.
  by rewrite (fold_inputs_Ok_log _ _ _ _ _ _ _ H).
Qed.

(** C9.  When the inputs before one translate and fold_inputs, in their order,
    and the translation of that one, a plain statechart, raises, then the
    assembly logs one error, with the locator and the name of that input,
    and raises the same exception: the inputs after it are not looked at
    and no model is returned. *)
Theorem failed_translation_reported pre bad post max_array_size log log' m ev e :
  fold_inputs pre max_array_size base_model new_events_holder log
  = (log', Ok (m, ev)) ->
  is_plain_scxml bad = true ->
  convert_scxml_root_to_jani_automaton bad ev max_array_size = Raise e ->
  convert_multiple_scxmls_to_jani (pre ++ bad :: post)%list max_array_size log =
    ((log ++ [{| log_origin := get_xml_origin bad;
                 log_message :=
                   ("Error while converting SCXML model "
                      ++ get_name bad ++ ".")%string |}])%list,
     Raise e).
Proof.
  intros Hpre Hplain Hbad. unfold convert_multiple_scxmls_to_jani.
  rewrite fold_inputs_app, Hpre. simpl. rewrite Hplain, Hbad. simpl.
  by rewrite (fold_inputs_Ok_log _ _ _ _ _ _ _ Hpre).
Qed.

End AssemblerProperties.

(** Two statecharts: the registry reaches the first pass with both names,
    and the marks of the passes follow the two initial features in the
    order of the calls. *)
Lemma passes_after_folding_witness :
  exists m,
    convert_multiple_scxmls_to_jani (collaborators := toy_collaborators)
      ["sender"; "receiver"] 10 [] = ([], Ok m)
    /\ model_features m =
         ["arrays"; "trigonometric-functions"; "syncs of sender,receiver";
          "pruned"; "expanded to 100"]
    /\ map automaton_name (model_automata m) = ["sender"; "receiver"].
Proof.
  eexists. split.
  - eapply (passes_after_folding (collaborators := toy_collaborators)).
    reflexivity.
  - split; reflexivity.
Defined.

(** The second of three statecharts does not translate. *)
Lemma failed_translation_reported_witness :
  convert_multiple_scxmls_to_jani (collaborators := toy_collaborators)
      ["sender"; "broken"; "receiver"] 10 [] =
    ([{| log_origin := "broken.scxml";
         log_message := "Error while converting SCXML model broken." |}],
     Raise (ForeignError "no initial state")).
Proof.
  refine (failed_translation_reported (collaborators := toy_collaborators)
            ["sender"] "broken" ["receiver"] 10 [] [] _ _
            (ForeignError "no initial state") _ _ _).
  - reflexivity.
  - reflexivity.
  - reflexivity.
Defined.

(** ** More on one expression *)

Lemma get_comment_set_comment e c : get_comment (set_comment e c) = c.
Proof. by destruct e. Qed.

Section FixedPoints.

Context {helpers : ArrayHelpers}.

Lemma array_free_Operator op ops c :
  array_free (Operator op ops c) =
    is_expression_array (Operator op ops c)
    || forallb (fun kv => negb (is_expression_array (snd kv))
                          && array_free (snd kv)) ops.
Proof.
  simpl. f_equal. induction ops as [|[k v] ops IH]; simpl; [done|].
  by rewrite IH.
Qed.

Lemma no_recognised_operand (ops : list (string * JaniExpression)) :
  forallb (fun kv => negb (is_expression_array (snd kv))
                     && array_free (snd kv)) ops = true ->
  existsb (fun kv => is_expression_array (snd kv)) ops = false.
Proof.
  induction ops as [|kv ops IH]; simpl; [done|].
  intros H. apply andb_prop in H as [H Hops].
  apply andb_prop in H as [Hkv _].
  apply negb_true_iff in Hkv. by rewrite Hkv, IH.
Qed.

(** An array-free expression is returned as it is, in any context. *)
Lemma array_free_fixed e :
  array_free e = true -> forall ctx, _preprocess_jani_expression e ctx = Ok e.
Proof.
  induction e as [v c|x c|op ops c IH|els c _]
    using JaniExpression_nested_ind; intros Hfree ctx.
  - done.
  - done.
  - rewrite normalise_Operator. rewrite array_free_Operator in Hfree.
    destruct (is_expression_array (Operator op ops c)); [done|].
    simpl in Hfree. rewrite (no_recognised_operand _ Hfree).
    assert (mapM (normalise_operand ctx) ops = Ok ops) as ->; [|done].
    induction IH as [|[k v] l IHv _ IHl]; simpl in *; [done|].
    apply andb_prop in Hfree as [H Hl]. apply andb_prop in H as [_ Hv].
    unfold normalise_operand at 1; simpl.
    by rewrite (IHv Hv ctx), (IHl Hl).
  - simpl in *. by rewrite Hfree.
Qed.

(** The seed of a conjunction over no elements is not an equality that the
    array comparison accepts: its right operand is a literal. *)
Lemma compare_seed_raised length_var n c ctx :
  raised (_preprocess_array_comparison
            (Operator "=" [("left", identifier_of length_var);
                           ("right", literal_of_nat n)] c) ctx).
Proof.
  unfold _preprocess_array_comparison; simpl.
  destruct (scan_operand ctx initial_locals (identifier_of length_var));
    simpl; apply raised_Raise.
Qed.

(** An array comparison never returns the equality it was given. *)
Lemma compare_arrays_not_fixed ops c ctx :
  _preprocess_array_comparison (Operator "=" ops c) ctx
  <> Ok (Operator "=" ops c).
Proof.
  intros H. pose proof H as H'.
  apply compare_arrays_Ok_inv in H' as (length_var & id & els & Heq & _).
  rewrite comparison_chain_expected in Heq.
  destruct (length els) as [|n]; simpl in Heq; [|discriminate].
  injection Heq as ->.
  by apply (raised_not_Ok _ _ (compare_seed_raised length_var 0 c ctx)) in H.
Qed.

(** An expression that normalisation returns as it is is array-free. *)
Lemma fixed_array_free e ctx :
  _preprocess_jani_expression e ctx = Ok e -> array_free e = true.
Proof.
  induction e as [v c|x c|op ops c IH|els c _]
    using JaniExpression_nested_ind; intros H.
  - done.
  - done.
  - rewrite normalise_Operator in H. rewrite array_free_Operator.
    destruct (is_expression_array (Operator op ops c)); [done|]. simpl.
    destruct (existsb _ ops) eqn:Hex.
    + destruct (String.eqb op "=") eqn:Hop; [|discriminate].
      apply String.eqb_eq in Hop as ->.
      by apply compare_arrays_not_fixed in H.
    + apply bind_Ok_inv in H as (ops' & Hmap & [= ->]).
      apply mapM_Ok_Forall2 in Hmap. clear c op.
      induction ops as [|[k v] ops IHops]; simpl; [done|].
      apply Forall_cons in IH as [IHv IH]. simpl in Hex.
      apply orb_false_elim in Hex as [Hv Hex].
      inversion Hmap as [|? ? ? ? Hkv Hrest]; subst.
      unfold normalise_operand in Hkv; simpl in Hkv.
      apply bind_Ok_inv in Hkv as (e' & He' & [= ->]).
      simpl in *. by rewrite Hv, (IHv He'), (IHops IH Hex Hrest).
  - simpl in *. by destruct (is_expression_array (ArrayValue els c)).
Qed.

(** X1.  The expressions that normalisation returns as they are are the
    array-free ones, and this in every context: those in which, below
    operators, the array check recognises no operand (an expression the
    check takes for an array as a whole is returned without being looked
    into). *)
Theorem normalisation_fixed_points e ctx :
  _preprocess_jani_expression e ctx = Ok e <-> array_free e = true.
Proof.
  split; [apply fixed_array_free | intros H; by apply array_free_fixed].
Qed.

(** X2.  Normalisation keeps the comment of the root: the expression it
    returns carries the comment of the one it was given, whether it was
    returned as it is, rebuilt or expanded. *)
Theorem normalisation_keeps_comment e ctx e' :
  _preprocess_jani_expression e ctx = Ok e' ->
  get_comment e' = get_comment e.
Proof.
  destruct e as [v c|x c|op ops c|els c]; intros H.
  - by injection H as <-.
  - by injection H as <-.
  - rewrite normalise_Operator in H.
    destruct (is_expression_array _); [by injection H as <-|].
    destruct (existsb _ ops).
    + destruct (String.eqb op "="); [|discriminate].
      apply compare_arrays_Ok_inv in H as (length_var & id & els & -> & _).
      apply get_comment_set_comment.
    + by apply bind_Ok_inv in H as (ops' & _ & [= <-]).
  - simpl in H. destruct (is_expression_array _); [|discriminate].
    by injection H as <-.
Qed.

(** *** What normalisation returns *)

Lemma no_array_operand_Operator op ops c :
  no_array_operand (Operator op ops c) =
    forallb (fun kv => negb (is_array_value (snd kv))
                       && no_array_operand (snd kv)) ops.
Proof.
  simpl. induction ops as [|[k v] ops IH]; simpl; [done|]. by rewrite IH.
Qed.

Lemma no_array_operand_set_comment e c :
  no_array_operand (set_comment e c) = no_array_operand e.
Proof. by destruct e. Qed.

Lemma literal_element_clean els j :
  forallb is_literal els = true ->
  is_array_value (nth j els (literal_of_nat 0)) = false
  /\ no_array_operand (nth j els (literal_of_nat 0)) = true.
Proof.
  intros Hlit.
  assert (is_literal (nth j els (literal_of_nat 0)) = true) as H.
  { destruct (Nat.lt_ge_cases j (length els)) as [Hj|Hj].
    - rewrite forallb_forall in Hlit. apply Hlit, nth_In, Hj.
    - by rewrite nth_overflow. }
  by destruct (nth j els _).
Qed.

Lemma expected_conjunction_clean length_var id els i :
  forallb is_literal els = true ->
  is_array_value (expected_conjunction length_var id els i) = false
  /\ no_array_operand (expected_conjunction length_var id els i) = true.
Proof.
  intros Hlit. induction i as [|i [IHav IH]]; [done|].
  split; [done|].
  destruct (literal_element_clean els i Hlit) as [Hav Hclean].
  cbn [expected_conjunction]. unfold and_operator.
  rewrite no_array_operand_Operator. cbn [forallb snd].
  rewrite IHav, IH. cbn [negb andb].
  unfold equal_operator. cbn [is_array_value negb andb].
  rewrite no_array_operand_Operator. cbn [forallb snd].
  by rewrite Hav, Hclean.
Qed.

(** What normalisation returns for an expression that is not an array
    value is not an array value, and has no array value below its
    operators. *)
Lemma normalise_clean e ctx e' :
  recognises_only_array_values ->
  _preprocess_jani_expression e ctx = Ok e' ->
  no_array_operand e' = true
  /\ (is_array_value e = false -> is_array_value e' = false).
Proof.
  intros Honly. revert e'.
  induction e as [v c|x c|op ops c IH|els c _]
    using JaniExpression_nested_ind; intros e' H.
  - by injection H as <-.
  - by injection H as <-.
  - rewrite normalise_Operator, (not_array_Operator Honly) in H.
    destruct (existsb _ ops) eqn:Hex.
    + destruct (String.eqb op "="); [|discriminate].
      apply compare_arrays_Ok_inv in H as (length_var & id & els & -> & Hlit).
      rewrite comparison_chain_expected, no_array_operand_set_comment.
      destruct (expected_conjunction_clean length_var id els (length els) Hlit)
        as [Hav Hclean].
      split; [done|]. intros _.
      by destruct (expected_conjunction length_var id els (length els)).
    + apply bind_Ok_inv in H as (ops' & Hmap & [= <-]).
      split; [|done]. rewrite no_array_operand_Operator.
      apply mapM_Ok_Forall2 in Hmap. clear c op.
      induction Hmap as [|[k v] [k' v'] l l' Hkv _ IHl]; [done|].
      apply Forall_cons in IH as [IHv IH]. simpl in Hex.
      apply orb_false_elim in Hex as [Hv Hex].
      unfold normalise_operand in Hkv; simpl in Hkv.
      apply bind_Ok_inv in Hkv as (e1 & He1 & [= <- <-]).
      destruct (IHv _ He1) as [Hclean Hav]. simpl in *.
      rewrite Hclean, (IHl IH Hex), Hav; [done|].
      destruct v; try done. simpl in He1. by rewrite Hv in He1.
  - simpl in H. destruct (is_expression_array _); [|discriminate].
    by injection H as <-.
Qed.

(** X3.  When the array check takes nothing but array values for arrays,
    no operator of a normalised expression, at any depth below operators,
    has an array value among its operands: every comparison with an array
    value is expanded or is an error.  (An array value given as the whole
    expression is returned as it is.) *)
Theorem normalised_has_no_array_operand e ctx e' :
  recognises_only_array_values ->
  _preprocess_jani_expression e ctx = Ok e' ->
  no_array_operand e' = true.
Proof. intros Honly H. by destruct (normalise_clean e ctx e' Honly H). Qed.

(** X4.  A normalised expression is returned as it is by normalisation in
    every context, not only in the one it was normalised in: the second
    pass never looks a variable up. *)
Theorem normalised_fixed_in_any_context e ctx e' :
  recognises_only_array_values ->
  _preprocess_jani_expression e ctx = Ok e' ->
  forall ctx', _preprocess_jani_expression e' ctx' = Ok e'.
Proof.
  intros Honly H ctx'. apply array_free_fixed.
  apply (fixed_array_free e' ctx).
  exact (normalise_idempotent Honly ctx e e' H).
Qed.

(** *** Larger contexts *)

Lemma scan_operand_weaken (ctx ctx' : Registry) locals operand locals' :
  ctx ⊆ ctx' ->
  scan_operand ctx locals operand = Ok locals' ->
  scan_operand ctx' locals operand = Ok locals'.
Proof.
  intros Hsub. destruct operand as [v c|x cx|op ops c|els ca]; try done.
  unfold scan_operand; simpl.
  destruct (ctx !! x) as [var|] eqn:Hx; [|discriminate].
  rewrite (lookup_weaken _ _ _ _ Hx Hsub).
  destruct (negb _); [discriminate|].
  destruct (get_array_info var) as [info|]; [|discriminate].
  destruct (forallb _ _) eqn:Hall; [|discriminate].
  intros H.
  assert (forallb (fun n => bool_decide (is_Some (ctx' !! n)))
            (map (fun d => get_array_length_var_name x (d + 1))
               (seq 0 (array_dimensions info))) = true) as ->; [|done].
  rewrite forallb_forall in Hall. apply forallb_forall. intros n Hn.
  specialize (Hall n Hn). apply bool_decide_eq_true in Hall as [w Hw].
  apply bool_decide_eq_true. exists w. by apply (lookup_weaken ctx).
Qed.

Lemma foldM_weaken {A S : Type} (f g : S -> A -> result S) (l : list A) :
  (forall s x s', f s x = Ok s' -> g s x = Ok s') ->
  forall s s', foldM f s l = Ok s' -> foldM g s l = Ok s'.
Proof.
  intros Hfg. induction l as [|x l IH]; simpl; intros s s' H; [done|].
  apply bind_Ok_inv in H as (s1 & H1 & H).
  rewrite (Hfg _ _ _ H1). simpl. by apply IH.
Qed.

Lemma compare_arrays_weaken (ctx ctx' : Registry) e e' :
  ctx ⊆ ctx' ->
  _preprocess_array_comparison e ctx = Ok e' ->
  _preprocess_array_comparison e ctx' = Ok e'.
Proof.
  intros Hsub. unfold _preprocess_array_comparison.
  destruct (as_operator e) as [op [[ops|els]|]]; destruct (negb _); try done.
  intros H. apply bind_Ok_inv in H as (locals & Hfold & H).
  rewrite (foldM_weaken _ (scan_operand ctx') _
             (fun s x s' => scan_operand_weaken ctx ctx' s x s' Hsub) _ _ Hfold).
  done.
Qed.

(** X5.  Declaring more variables does not change a normalisation that
    succeeded: in a context that extends the one in which an expression
    was normalised, normalisation returns the same expression. *)
Theorem normalisation_in_larger_context (ctx ctx' : Registry) e e' :
  ctx ⊆ ctx' ->
  _preprocess_jani_expression e ctx = Ok e' ->
  _preprocess_jani_expression e ctx' = Ok e'.
Proof.
  intros Hsub. revert e'.
  induction e as [v c|x c|op ops c IH|els c _]
    using JaniExpression_nested_ind; intros e' H; try done.
  rewrite normalise_Operator in H |- *.
  destruct (is_expression_array _); [done|].
  destruct (existsb _ ops).
  - destruct (String.eqb op "="); [|done].
    by apply (compare_arrays_weaken ctx).
  - apply bind_Ok_inv in H as (ops' & Hmap & [= <-]).
    assert (mapM (normalise_operand ctx') ops = Ok ops') as ->; [|done].
    apply mapM_Ok_Forall2 in Hmap. apply mapM_Ok_Forall2.
    induction Hmap as [|[k v] kv' l l' Hkv _ IHl]; [constructor|].
    apply Forall_cons in IH as [IHv IH].
    constructor; [|by apply IHl].
    unfold normalise_operand in Hkv |- *; simpl in *.
    apply bind_Ok_inv in Hkv as (e1 & He1 & [= <-]).
    by rewrite (IHv _ He1).
Qed.

End FixedPoints.

(** ** More on the array comparison *)

Section ArrayComparison.

Context {helpers : ArrayHelpers}.

Lemma scan_identifier_Ok_inv ctx locals x cx locals' :
  scan_operand ctx locals (Identifier x cx) = Ok locals' ->
  exists v info,
    ctx !! x = Some v
    /\ is_variable_array v = true
    /\ get_array_info v = Some info
    /\ length_variables_present ctx x info = true
    /\ locals' =
         {| array_elements := array_elements locals;
            array_var_id := Some x;
            array_length_var_ids :=
              map (fun d => get_array_length_var_name x (d + 1))
                (seq 0 (array_dimensions info));
            array_operator := array_operator locals |}.
Proof.
  unfold scan_operand, length_variables_present; simpl.
  destruct (ctx !! x) as [v|] eqn:Hx; [|discriminate].
  destruct (is_variable_array v) eqn:Hv; [|discriminate]. simpl.
  destruct (get_array_info v) as [info|] eqn:Hinfo; [|discriminate].
  destruct (forallb _ _) eqn:Hall; [|discriminate].
  intros [= <-]. exists v, info. by rewrite Hinfo.
Qed.

Lemma scan_array_value_Ok_inv ctx locals els ca locals' :
  scan_operand ctx locals (ArrayValue els ca) = Ok locals' ->
  forallb is_literal els = true
  /\ locals' =
       {| array_elements := Some els;
          array_var_id := array_var_id locals;
          array_length_var_ids := array_length_var_ids locals;
          array_operator := Some "av" |}.
Proof.
  rewrite scan_array_value. destruct (forallb _ _); [|discriminate].
  by intros [= <-].
Qed.

(** X6.  An equality of two operands that the array comparison expands is
    expanded to the same expression when the operands are exchanged, under
    whatever roles: the comparison reads the operands, not their roles nor
    their order. *)
Theorem array_comparison_symmetric r1 r2 r1' r2' o1 o2 c ctx e' :
  _preprocess_array_comparison (Operator "=" [(r1, o1); (r2, o2)] c) ctx = Ok e' ->
  _preprocess_array_comparison (Operator "=" [(r1', o2); (r2', o1)] c) ctx = Ok e'.
Proof.
  intros H. unfold _preprocess_array_comparison in H |- *; simpl in H |- *.
  apply bind_Ok_inv in H as (locals & Hfold & H).
  apply bind_Ok_inv in Hfold as (s1 & H1 & Hfold).
  apply bind_Ok_inv in Hfold as (s2 & H2 & [= ->]).
  pose proof H1 as H1'. pose proof H2 as H2'.
  apply scan_Ok_inv in H1' as [(x & cx & -> & _)|(els & ca & -> & _)];
    apply scan_Ok_inv in H2' as [(x' & cx' & -> & _)|(els' & ca' & -> & _)].
  - apply scan_identifier_Ok_inv in H1 as (? & ? & _ & _ & _ & _ & ->).
    apply scan_identifier_Ok_inv in H2 as (? & ? & _ & _ & _ & _ & ->).
    discriminate.
  - apply scan_identifier_Ok_inv in H1 as (v & info & Hx & Hv & Hinfo & Hlen & ->).
    apply scan_array_value_Ok_inv in H2 as (Hlit & ->). simpl in H.
    rewrite scan_array_value, Hlit. simpl.
    rewrite (scan_identifier _ _ _ _ _ _ Hx Hv Hinfo). simpl.
    unfold length_variables_present in Hlen. rewrite Hlen. simpl. exact H.
  - apply scan_array_value_Ok_inv in H1 as (Hlit & ->).
    apply scan_identifier_Ok_inv in H2 as (v & info & Hx & Hv & Hinfo & Hlen & ->).
    simpl in H.
    rewrite (scan_identifier _ _ _ _ _ _ Hx Hv Hinfo). simpl.
    unfold length_variables_present in Hlen. rewrite Hlen. simpl.
    rewrite scan_array_value, Hlit. simpl. exact H.
  - apply scan_array_value_Ok_inv in H1 as (_ & ->).
    apply scan_array_value_Ok_inv in H2 as (_ & ->).
    discriminate.
Qed.

Lemma scan_declared_arrays ctx operands locals :
  Forall (declared_array ctx) operands ->
  exists locals',
    foldM (scan_operand ctx) locals operands = Ok locals'
    /\ array_operator locals' = array_operator locals.
Proof.
  intros H. revert locals.
  induction H as [|o l (x & cx & v & info & -> & Hx & Hv & Hinfo & Hlen) _ IH];
    intros locals; simpl; [by exists locals|].
  rewrite (scan_identifier _ _ _ _ _ _ Hx Hv Hinfo). simpl.
  unfold length_variables_present in Hlen. rewrite Hlen. simpl.
  destruct (IH {| array_elements := array_elements locals;
                  array_var_id := Some x;
                  array_length_var_ids :=
                    map (fun d => get_array_length_var_name x (d + 1))
                      (seq 0 (array_dimensions info));
                  array_operator := array_operator locals |})
    as (locals' & Hfold & Hop).
  by exists locals'.
Qed.

(** X7.  An equality whose operands are all identifiers of declared
    arrays, and also one without operands, does not reach the assertion
    that an array operator was found: the name the assertion reads was
    never bound, and what is raised is an unbound local variable. *)
Theorem identifiers_only_comparison ops c ctx :
  Forall (fun kv => declared_array ctx (snd kv)) ops ->
  _preprocess_array_comparison (Operator "=" ops c) ctx
  = Raise (UnboundLocalError "array_operator").
Proof.
  intros H. unfold _preprocess_array_comparison; simpl.
  destruct (scan_declared_arrays ctx (map snd ops) initial_locals)
    as (locals & -> & Hop).
  { by apply Forall_map. }
  simpl. by rewrite Hop.
Qed.

(** X8.  Between an identifier and an array value of literals, in either
    order, the comparison raises on the identifier: it is not in the
    context, or the variable it names is not an array, or that variable
    has no array metadata. *)
Theorem unresolved_identifier_errors ctx r1 r2 x cx els ca c ops :
  ops = [(r1, Identifier x cx); (r2, ArrayValue els ca)]
  \/ ops = [(r1, ArrayValue els ca); (r2, Identifier x cx)] ->
  forallb is_literal els = true ->
  (ctx !! x = None ->
   _preprocess_array_comparison (Operator "=" ops c) ctx
   = Raise (AssertionError VariableNotInContext))
  /\ (forall v,
        ctx !! x = Some v -> is_variable_array v = false ->
        _preprocess_array_comparison (Operator "=" ops c) ctx
        = Raise (AssertionError VariableNotArray))
  /\ (forall v,
        ctx !! x = Some v -> is_variable_array v = true ->
        get_array_info v = None ->
        _preprocess_array_comparison (Operator "=" ops c) ctx
        = Raise (AssertionError NoArrayInfo)).
Proof.
  intros Hops Hlit. unfold _preprocess_array_comparison.
  split; [|split].
  - intros Hx. destruct Hops as [-> | ->]; simpl;
      rewrite ?scan_array_value, ?Hlit; simpl;
      unfold scan_operand; simpl; by rewrite Hx.
  - intros v Hx Hv. destruct Hops as [-> | ->]; simpl;
      rewrite ?scan_array_value, ?Hlit; simpl;
      unfold scan_operand; simpl; by rewrite Hx, Hv.
  - intros v Hx Hv Hinfo. destruct Hops as [-> | ->]; simpl;
      rewrite ?scan_array_value, ?Hlit; simpl;
      unfold scan_operand; simpl; by rewrite Hx, Hv, Hinfo.
Qed.

End ArrayComparison.

(** ** More on a whole model *)

Section ModelFrame.

Context {helpers : ArrayHelpers}.

Lemma preprocess_destination_frame ctx d d' :
  preprocess_destination ctx d = Ok d' -> same_destination_frame d d'.
Proof.
  unfold preprocess_destination. intros H.
  apply bind_Ok_inv in H as (l' & Hmap & [= <-]).
  repeat split; simpl.
  apply mapM_Ok_Forall2 in Hmap.
  induction Hmap as [|a a' l l' Ha _ IH]; constructor; [|exact IH].
  unfold preprocess_assignment in Ha.
  apply bind_Ok_inv in Ha as (e' & _ & [= <-]). by split.
Qed.

Lemma preprocess_guard_skeleton ctx g g' :
  preprocess_guard ctx g = Ok g' -> guard_skeleton g' = guard_skeleton g.
Proof.
  destruct g as [[[e|]]|]; simpl; intros H.
  - by apply bind_Ok_inv in H as (e' & _ & [= <-]).
  - by injection H as <-.
  - by injection H as <-.
Qed.

Lemma preprocess_edge_frame ctx ed ed' :
  preprocess_edge ctx ed = Ok ed' -> same_edge_frame ed ed'.
Proof.
  unfold preprocess_edge. intros H.
  apply bind_Ok_inv in H as (g' & Hg & H).
  apply bind_Ok_inv in H as (ds' & Hds & [= <-]).
  repeat split; simpl; [by apply (preprocess_guard_skeleton ctx)|].
  apply mapM_Ok_Forall2 in Hds.
  induction Hds as [|d d' l l' Hd _ IH]; constructor; [|exact IH].
  by apply (preprocess_destination_frame ctx).
Qed.

(** X9.  Normalisation rewrites expressions and nothing else.  In the
    model it returns, the variables and the features are those of the
    model it was given; the automata are as many, each with its name, its
    variables and as many edges, each edge with its location, its action,
    a guard where there was one and as many destinations, each with its
    location, its probability and as many assignments, each with its
    target and index; the properties are as many, each with its name and
    the roles of its operands, in their order.  The probabilities and the
    targets of the assignments are expressions that are not normalised. *)
Theorem normalisation_frame m m' :
  preprocess_jani_expressions m = Ok m' ->
  model_variables m' = model_variables m
  /\ model_features m' = model_features m
  /\ Forall2 same_automaton_frame (model_automata m) (model_automata m')
  /\ Forall2 same_property_frame (model_properties m) (model_properties m').
Proof.
  unfold preprocess_jani_expressions. intros H.
  apply bind_Ok_inv in H as (automata' & Ha & H).
  apply bind_Ok_inv in H as (properties' & Hp & [= <-]). simpl.
  repeat split.
  - apply mapM_Ok_Forall2 in Ha.
    induction Ha as [|a a' l l' H _ IH]; constructor; [|exact IH].
    unfold preprocess_automaton in H.
    apply bind_Ok_inv in H as (edges' & He & [= <-]).
    repeat split; simpl.
    apply mapM_Ok_Forall2 in He.
    induction He as [|ed ed' es es' H _ IHe]; constructor; [|exact IHe].
    by apply preprocess_edge_frame in H.
  - apply mapM_Ok_Forall2 in Hp.
    induction Hp as [|p p' l l' H _ IH]; constructor; [|exact IH].
    unfold preprocess_property in H.
    apply bind_Ok_inv in H as (ops' & Ho & [= <-]).
    split; simpl; [done|].
    apply mapM_Ok_Forall2 in Ho.
    induction Ho as [|kv kv' os os' H _ IHo]; simpl; [done|].
    apply bind_Ok_inv in H as (e' & _ & [= <-]). simpl. by rewrite IHo.
Qed.

Lemma preprocess_edge_raised ctx ed e :
  In e (edge_expressions ed) ->
  raised (_preprocess_jani_expression e ctx) ->
  raised (preprocess_edge ctx ed).
Proof.
  unfold edge_expressions, preprocess_edge. intros Hin He.
  apply in_app_or in Hin as [Hin|Hin].
  - apply bind_raised_l.
    destruct (guard ed) as [[[g|]]|]; simpl in Hin; try done.
    destruct Hin as [->|[]]. simpl. by apply bind_raised_l.
  - destruct (preprocess_guard ctx (guard ed)); [|apply raised_Raise]. simpl.
    apply bind_raised_l.
    apply in_concat in Hin as (es & Hes & Hin).
    apply in_map_iff in Hes as (d & <- & Hd).
    apply (mapM_raised _ _ d Hd).
    unfold preprocess_destination. apply bind_raised_l.
    unfold destination_expressions in Hin.
    apply in_map_iff in Hin as (asg & <- & Hasg).
    apply (mapM_raised _ _ asg Hasg).
    unfold preprocess_assignment. by apply bind_raised_l.
Qed.

(** X10.  One expression that does not normalise is enough for the whole
    model not to: when the guard or an assigned value of some edge raises
    in the context of its automaton, or an operand of some property raises
    in the global variables, the normalisation of the model raises and no
    model is returned. *)
Theorem failing_expression_aborts m :
  (exists a ed e,
      In a (model_automata m) /\ In ed (automaton_edges a)
      /\ In e (edge_expressions ed)
      /\ raised (_preprocess_jani_expression e
                   (dict_or (model_variables m) (automaton_variables a))))
  \/ (exists p kv,
        In p (model_properties m) /\ In kv (property_operands p)
        /\ raised (_preprocess_jani_expression (snd kv) (model_variables m))) ->
  raised (preprocess_jani_expressions m).
Proof.
  unfold preprocess_jani_expressions.
  intros [(a & ed & e & Ha & Hed & He & Hraise)|(p & kv & Hp & Hkv & Hraise)].
  - apply bind_raised_l. apply (mapM_raised _ _ a Ha).
    unfold preprocess_automaton. apply bind_raised_l.
    apply (mapM_raised _ _ ed Hed).
    by apply (preprocess_edge_raised _ _ e).
  - destruct (mapM _ (model_automata m)); [|apply raised_Raise]. simpl.
    apply bind_raised_l. apply (mapM_raised _ _ p Hp).
    unfold preprocess_property. apply bind_raised_l.
    apply (mapM_raised _ _ kv Hkv). by apply bind_raised_l.
Qed.

End ModelFrame.

(** ** More on the assembler *)

Section AssemblerEdges.

Context {collaborators : Collaborators}.

(** X11.  An input that is not plain stops the assembly on the assertion
    of l.88: when the inputs before it translate and fold, the assembly
    raises that assertion, logs nothing, and neither translates that input
    nor looks at the ones after it. *)
Theorem non_plain_input_aborts pre bad post max_array_size log log' m ev :
  fold_inputs pre max_array_size base_model new_events_holder log
  = (log', Ok (m, ev)) ->
  is_plain_scxml bad = false ->
  convert_multiple_scxmls_to_jani (pre ++ bad :: post)%list max_array_size log
  = (log, Raise (AssertionError NotPlainScxml)).
Proof.
  intros Hpre Hplain. unfold convert_multiple_scxmls_to_jani.
  rewrite fold_inputs_app, Hpre. simpl. rewrite Hplain. simpl.
  by rewrite (fold_inputs_Ok_log _ _ _ _ _ _ _ Hpre).
Qed.

(** X12.  Only a failure of the translator is logged.  When an input
    translates and folding its automaton into the model raises, the
    assembly raises that exception and logs nothing, the call being
    outside the [try] of l.91-100. *)
Theorem failed_fold_not_logged pre input post max_array_size log log' m ev
    automaton ev' e :
  fold_inputs pre max_array_size base_model new_events_holder log
  = (log', Ok (m, ev)) ->
  is_plain_scxml input = true ->
  convert_scxml_root_to_jani_automaton input ev max_array_size
  = Ok (automaton, ev') ->
  add_jani_automaton m automaton = Raise e ->
  convert_multiple_scxmls_to_jani (pre ++ input :: post)%list max_array_size log
  = (log, Raise e).
Proof.
  intros Hpre Hplain Htranslate Hadd. unfold convert_multiple_scxmls_to_jani.
  rewrite fold_inputs_app, Hpre. simpl. rewrite Hplain, Htranslate, Hadd. simpl.
  by rewrite (fold_inputs_Ok_log _ _ _ _ _ _ _ Hpre).
Qed.

Lemma fold_inputs_log scxmls max_array_size m ev log log' r :
  fold_inputs scxmls max_array_size m ev log = (log', r) ->
  log' = log
  \/ exists bad e,
       In bad scxmls /\ r = Raise e
       /\ log' = (log ++ [conversion_error_entry bad])%list.
Proof.
  revert m ev. induction scxmls as [|x l IH]; intros m ev; simpl.
  - intros [= <- _]. by left.
  - destruct (negb _); [intros [= <- _]; by left|].
    destruct (convert_scxml_root_to_jani_automaton _ _ _) as [[a ev']|e].
    + destruct (add_jani_automaton m a) as [m'|e]; [|intros [= <- _]; by left].
      intros H. apply IH in H as [->|(bad & e & Hin & -> & ->)]; [by left|].
      right. exists bad, e. auto.
    + intros [= <- <-]. right. exists x, e. auto.
Qed.

(** X13.  An assembly logs at most one error: the log it returns is the
    log it was given, or that log followed by the one entry for an input of
    the sequence, with its locator and its name, and then the assembly has
    raised.  An assembly that returns a model has logged nothing. *)
Theorem at_most_one_error_logged scxmls max_array_size log log' r :
  convert_multiple_scxmls_to_jani scxmls max_array_size log = (log', r) ->
  log' = log
  \/ exists bad e,
       In bad scxmls /\ r = Raise e
       /\ log' = (log ++ [conversion_error_entry bad])%list.
Proof.
  unfold convert_multiple_scxmls_to_jani.
  destruct (fold_inputs _ _ _ _ _) as [log1 [[m ev]|e]] eqn:Hfold.
  - intros [= <- _]. left. exact (fold_inputs_Ok_log _ _ _ _ _ _ _ Hfold).
  - intros [= <- <-].
    destruct (fold_inputs_log _ _ _ _ _ _ _ Hfold)
      as [->|(bad & e' & Hin & [= <-] & ->)]; [by left|].
    right. by exists bad, e.
Qed.

(** X14.  Once the loop over the inputs has raised, the inputs that follow
    are not looked at: the assembly of a longer sequence is the assembly of
    the sequence that raised, log and exception. *)
Theorem inputs_after_failure_ignored scxmls post max_array_size log e :
  snd (fold_inputs scxmls max_array_size base_model new_events_holder log)
  = Raise e ->
  convert_multiple_scxmls_to_jani (scxmls ++ post)%list max_array_size log
  = convert_multiple_scxmls_to_jani scxmls max_array_size log.
Proof.
  intros H. unfold convert_multiple_scxmls_to_jani. rewrite fold_inputs_app.
  by destruct (fold_inputs scxmls _ _ _ _) as [log1 [[m ev]|e1]].
Qed.

End AssemblerEdges.

(** ** The added properties on the scenarios *)

(** The expanded guard keeps the comment of the guard. *)
Lemma normalisation_keeps_comment_witness :
  get_comment scenario_guard_expanded = Some "guard of S1".
Proof.
  apply (normalisation_keeps_comment (helpers := reference_helpers)
           scenario_guard scenario_context scenario_guard_expanded).
  reflexivity.
Defined.

(** The expanded guard has no array value below its operators. *)
Lemma normalised_has_no_array_operand_witness :
  no_array_operand scenario_guard_expanded = true.
Proof.
  apply (normalised_has_no_array_operand (helpers := reference_helpers)
           scenario_guard scenario_context scenario_guard_expanded).
  - exact is_array_value_only.
  - reflexivity.
Defined.

(** The expanded guard is returned as it is where [arr] is not even
    declared. *)
Lemma normalised_fixed_in_any_context_witness :
  _preprocess_jani_expression (helpers := reference_helpers)
    scenario_guard_expanded context_a_int
  = Ok scenario_guard_expanded.
Proof.
  apply (normalised_fixed_in_any_context (helpers := reference_helpers)
           scenario_guard scenario_context scenario_guard_expanded).
  - exact is_array_value_only.
  - reflexivity.
Defined.

(** The guard of the automaton is expanded in the same way once the global
    variables are added to those of the automaton. *)
Lemma normalisation_in_larger_context_witness :
  _preprocess_jani_expression (helpers := reference_helpers) scenario_guard
    (dict_or scenario_globals scenario_context)
  = Ok scenario_guard_expanded.
Proof.
  apply (normalisation_in_larger_context (helpers := reference_helpers)
           scenario_context).
  - apply map_union_subseteq_l.
  - reflexivity.
Defined.

(** [[1, 2] == arr], with the roles exchanged as well. *)
Lemma array_comparison_symmetric_witness :
  _preprocess_array_comparison (helpers := reference_helpers)
    swapped_scenario_guard scenario_context
  = Ok scenario_guard_expanded.
Proof.
  apply (array_comparison_symmetric (helpers := reference_helpers)
           "left" "right" "right" "left").
  reflexivity.
Defined.

(** [a == a] over a declared array. *)
Lemma identifiers_only_comparison_witness :
  _preprocess_array_comparison (helpers := reference_helpers)
    same_identifier_guard context_a_array
  = Raise (UnboundLocalError "array_operator").
Proof.
  apply (identifiers_only_comparison (helpers := reference_helpers)).
  repeat constructor;
    exists "a", None, (array_variable "a" [5]),
      {| array_dimensions := 1; array_max_sizes := [5] |};
    repeat split; reflexivity.
Defined.

(** [ghost == [1]] where [ghost] is not declared. *)
Lemma unresolved_identifier_errors_witness :
  _preprocess_array_comparison (helpers := reference_helpers)
    undeclared_guard scenario_context
  = Raise (AssertionError VariableNotInContext).
Proof.
  refine (proj1 (unresolved_identifier_errors (helpers := reference_helpers)
                   scenario_context "left" "right" "ghost" None
                   [int_literal 1] None None _ _ _) _).
  - left; reflexivity.
  - reflexivity.
  - reflexivity.
Defined.

(** The normalised scenario keeps the frame of the scenario. *)
Lemma normalisation_frame_witness :
  model_variables scenario_model_normalised = scenario_globals
  /\ model_features scenario_model_normalised
     = ["arrays"; "trigonometric-functions"]
  /\ Forall2 same_automaton_frame [scenario_automaton]
       (model_automata scenario_model_normalised)
  /\ Forall2 same_property_frame [global_array_property]
       (model_properties scenario_model_normalised).
Proof.
  apply (normalisation_frame (helpers := reference_helpers)
           (scenario_model [global_array_property])).
  reflexivity.
Defined.

(** The property on the array of the automaton makes the whole scenario
    fail. *)
Lemma failing_expression_aborts_witness :
  raised (preprocess_jani_expressions (helpers := reference_helpers)
            (scenario_model [global_array_property; local_array_property])).
Proof.
  apply (failing_expression_aborts (helpers := reference_helpers)).
  right. exists local_array_property, ("exp", scenario_guard).
  split; [right; left; reflexivity|].
  split; [left; reflexivity|].
  eexists. reflexivity.
Defined.

(** The second of three statecharts is not plain. *)
Lemma non_plain_input_aborts_witness :
  convert_multiple_scxmls_to_jani (collaborators := picky_collaborators)
    ["sender"; "sugared"; "receiver"] 10 []
  = ([], Raise (AssertionError NotPlainScxml)).
Proof.
  refine (non_plain_input_aborts (collaborators := picky_collaborators)
            ["sender"] "sugared" ["receiver"] 10 [] [] _ _ _ _).
  - reflexivity.
  - reflexivity.
Defined.

(** Two statecharts of the same name: the second automaton is refused. *)
Lemma failed_fold_not_logged_witness :
  convert_multiple_scxmls_to_jani (collaborators := toy_collaborators)
    ["twin"; "twin"; "receiver"] 10 []
  = ([], Raise (ForeignError "duplicate automaton")).
Proof.
  refine (failed_fold_not_logged (collaborators := toy_collaborators)
            ["twin"] "twin" ["receiver"] 10 [] [] _ _ _ _
            (ForeignError "duplicate automaton") _ _ _ _).
  - reflexivity.
  - reflexivity.
  - reflexivity.
  - reflexivity.
Defined.

(** The failed assembly of three statecharts has logged one entry. *)
Lemma at_most_one_error_logged_witness :
  [{| log_origin := "broken.scxml";
      log_message := "Error while converting SCXML model broken." |}]
  = ([] : list (LogEntry string))
  \/ exists bad e,
       In bad ["sender"; "broken"; "receiver"]
       /\ @Raise JaniModel (ForeignError "no initial state") = Raise e
       /\ [{| log_origin := "broken.scxml";
              log_message := "Error while converting SCXML model broken." |}]
          = ([] ++ [conversion_error_entry (collaborators := toy_collaborators)
                      bad])%list.
Proof.
  apply (at_most_one_error_logged (collaborators := toy_collaborators)
           ["sender"; "broken"; "receiver"] 10).
  reflexivity.
Defined.

(** What follows the statechart that does not translate is of no
    account. *)
Lemma inputs_after_failure_ignored_witness :
  convert_multiple_scxmls_to_jani (collaborators := toy_collaborators)
    ["sender"; "broken"; "receiver"; "twin"] 10 []
  = convert_multiple_scxmls_to_jani (collaborators := toy_collaborators)
      ["sender"; "broken"] 10 [].
Proof.
  apply (inputs_after_failure_ignored (collaborators := toy_collaborators)
           ["sender"; "broken"] ["receiver"; "twin"] 10 []
           (ForeignError "no initial state")).
  reflexivity.
Defined.
